(** * The document service of [reminder]: ingestion, quota, retrieval

    A shallow embedding of [src/reminder/domain/document/service.py]
    ([DocumentService]) together with the collaborators it talks to: the
    relational tables behind the repositories, the S3 bucket, the SQS queue
    and the subscription service.  Every method of the service is a function
    in a state-and-exception monad over a [World]; a raised exception keeps
    the effects performed before it, as the service has no rollback. *)

From stdpp Require Import base tactics option list gmap strings.
From Stdlib Require Import ZArith Lia.

Local Open Scope string_scope.
Local Open Scope list_scope.
Local Open Scope Z_scope.

(** ** Data model *)

(** Modelled from the spec: the plan type, enumerated FREE | PRO
    ([reminder.domain.subscription.enum.SubscriptionPlanType], whose
    declaration is missing).  The constructor [OTHER] stands for any further
    member the enumeration may declare, so that the [else] branch of
    [upload_document] is represented. *)
Inductive SubscriptionPlanType :=
| FREE
| PRO
| OTHER (value : string).

(** Modelled from the spec: the content format, an enumeration whose
    declaration is missing; a member is identified by its [.value], the only
    thing the service reads of it. *)
Inductive DocumentFormat :=
| Format (value : string).

Definition format_value (f : DocumentFormat) : string :=
  match f with Format v => v end.

(** The records below are the ORM models and entities of the domain, whose
    declarations ([model.py], [entity.py]) are missing.
    Modelled from the spec: section 3 (data model), with the attributes
    [service.py] reads or sets under the names it uses.  Timestamps are
    integers, compared as [datetime] values are. *)

Module Subscription.
Record t := mk {
  plan_type : SubscriptionPlanType;
  purchased_date : Z;
  expire_date : Z }.
End Subscription.

Module Category.
Record t := mk {
  id : Z;
  member_id : string;
  name : string }.
End Category.

Module Question.
Record t := mk {
  id : Z;
  question : string;
  answer : string;
  delivered_count : Z;
  document_id : Z }.
End Question.

Module Document.
Record t := mk {
  id : Z;
  name : string;
  summary : option string;
  s3_key : option string;
  format : DocumentFormat;
  status : string;
  created_at : Z;
  category_id : Z;
  questions : list Question.t }.
End Document.

Module DocumentUpload.
Record t := mk {
  id : Z;
  member_id : string;
  document_id : Z;
  upload_date : Z }.

(** The object built by [DocumentUpload(member_id=..., document_id=...)]:
    the key and the upload date are columns filled in when the row is
    written. *)
Record init := new {
  init_member_id : string;
  init_document_id : Z }.
End DocumentUpload.

(** The entity handed to [upload_document]: the raw bytes, the target
    category and the declared format; [s3_key] is unset until
    [assign_s3_key]. *)
Module EDocument.
Record t := mk {
  content_bytes : list Byte.byte;
  category_id : Z;
  name : string;
  format : DocumentFormat;
  status : string;
  s3_key : option string }.

(** The entity with its key set. *)
Definition with_s3_key (e : t) (key : string) : t :=
  mk (content_bytes e) (category_id e) (name e) (format e) (status e)
     (Some key).
End EDocument.

(** An object of the bucket: bytes and the metadata map stored with them. *)
Module BucketObject.
Record t := mk {
  obj_bytes : list Byte.byte;
  metadata : gmap string string }.
End BucketObject.

(** Values of the dictionary sent to the queue. *)
Inductive PyVal :=
| PyStr (s : string)
| PyInt (z : Z).

(** ** Responses *)

Module UploadDocumentResponse.
Record t := mk { id : Z }.
End UploadDocumentResponse.

Module DocumentResponseDto.
Record t := mk {
  id : Z;
  documentName : string;
  summary : option string;
  createdAt : Z }.
End DocumentResponseDto.

Module GetAllDocumentsByCategoryResponse.
Record t := mk { documents : list DocumentResponseDto.t }.
End GetAllDocumentsByCategoryResponse.

Module CategoryResponseDto.
Record t := mk { id : Z; name : string }.
End CategoryResponseDto.

Module QuestionResponseDto.
Record t := mk { id : Z; question : string; answer : string }.
End QuestionResponseDto.

Module GetDocumentResponse.
Record t := mk {
  id : Z;
  status : string;
  category : CategoryResponseDto.t;
  documentName : string;
  summary : option string;
  format : DocumentFormat;
  createdAt : Z;
  questions : list QuestionResponseDto.t;
  content : string }.
End GetDocumentResponse.

(** ** Exceptions *)

Inductive Error :=
| SubscriptionNotFoundError
| FreePlanDocumentUploadLimitExceedError
| ProPlanDocumentUploadLimitExceedError
| ValueError (msg : string)
| DocumentMaxLengthExceedError
| CategoryNotFoundError (category_id : Z)
| DocumentNotFoundError (document_id : Z)
| UnicodeDecodeError
| S3ClientError
| DatabaseError
| SQSClientError.

Inductive Outcome (A : Type) :=
| Raise (e : Error)
| Return (a : A).
Arguments Raise {A} e.
Arguments Return {A} a.

Definition is_return {A} (r : Outcome A) : bool :=
  match r with Return _ => true | Raise _ => false end.

(** ** The world outside the service *)

(** What the collaborators did, in the order they did it.  A call to the
    bucket is recorded whether or not it succeeds; a write to a table or to
    the queue is recorded when it is done. *)
Inductive Event :=
| S3Upload (key : string) (ok : bool)
| S3GetObject (key : string)
| AssignS3Key (key : string)
| DocumentSave (document_id : Z)
| DocumentUploadSave (document_upload_id : Z)
| SQSPut (message : gmap string PyVal).

Record World := mkWorld {
  subscriptions : gmap string Subscription.t;
  categories : list Category.t;
  documents : list Document.t;
  document_uploads : list DocumentUpload.t;
  document_seq : Z;
  document_upload_seq : Z;
  bucket : gmap string BucketObject.t;
  queue : list (gmap string PyVal);
  trace : list Event }.

(** What the surroundings answer during one call of [upload_document]: the
    identifier drawn by [uuid.uuid4().hex], the clock, and whether each
    external write goes through. *)
Record Env := mkEnv {
  uuid4_hex : string;
  now : Z;
  s3_upload_ok : bool;
  document_save_ok : bool;
  document_upload_save_ok : bool;
  sqs_put_ok : bool }.

(** ** The monad of the service: state with exceptions, no rollback *)

Definition Action (A : Type) : Type := World -> World * Outcome A.

Definition ret {A} (a : A) : Action A := fun w => (w, Return a).

Definition raise {A} (e : Error) : Action A := fun w => (w, Raise e).

Definition bind {A B} (c : Action A) (k : A -> Action B) : Action B :=
  fun w =>
    match c w with
    | (w', Return a) => k a w'
    | (w', Raise e) => (w', Raise e)
    end.

Notation "'do' x <- c ; k" := (bind c (fun x => k))
  (at level 10, x name, c at level 100, k at level 200).
Notation "'do_' c ; k" := (bind c (fun _ => k))
  (at level 10, c at level 100, k at level 200).

(** ** Collaborators

    The code of the collaborators is missing; each is modelled from the
    interface the spec gives for it (section 6), over the tables, the bucket
    and the queue of the [World]. *)

Definition set_trace (w : World) (t : list Event) : World :=
  mkWorld (subscriptions w) (categories w) (documents w) (document_uploads w)
    (document_seq w) (document_upload_seq w) (bucket w) (queue w) t.

(** [EDocument.assign_s3_key]: sets the key on the entity, which the rest
    of [upload_document] goes on with. *)
Definition assign_s3_key (edocument : EDocument.t) (s3_key : string)
  : Action EDocument.t := fun w =>
  (set_trace w (trace w ++ [AssignS3Key s3_key]),
   Return (EDocument.with_s3_key edocument s3_key)).

Module SubscriptionService.
(** Modelled from the spec: the Subscription Oracle
    [GetCurrentSubscription(memberId) -> Subscription], failing with
    SubscriptionNotFound if none exists. *)
Definition get_current_subscription_by_member_id (member_id : string)
  : Action Subscription.t := fun w =>
  match subscriptions w !! member_id with
  | Some s => (w, Return s)
  | None => (w, Raise SubscriptionNotFoundError)
  end.
End SubscriptionService.

Module CategoryRepository.
Definition is_category (member_id : string) (category_id : Z)
    (c : Category.t) : bool :=
  bool_decide (Category.id c = category_id)
  && bool_decide (Category.member_id c = member_id).

(** Modelled from the spec: [FindOrNone(memberId, categoryId) -> Category |
    none], absent when the category does not exist or is not owned by the
    member. *)
Definition find_or_none_by_id (member_id : string) (category_id : Z)
  : Action (option Category.t) := fun w =>
  (w, Return (List.find (is_category member_id category_id) (categories w))).
End CategoryRepository.

Module DocumentRepository.
(** The first result of [f] along [l]. *)
Fixpoint first_some {A B} (f : A -> option B) (l : list A) : option B :=
  match l with
  | [] => None
  | x :: l' => match f x with Some y => Some y | None => first_some f l' end
  end.

(** The document [d], joined with its category, when it has the key
    [document_id] and its category is owned by [member_id]. *)
Definition owned (cats : list Category.t) (member_id : string)
    (document_id : Z) (d : Document.t) : option (Document.t * Category.t) :=
  if bool_decide (Document.id d = document_id) then
    match List.find
            (CategoryRepository.is_category member_id (Document.category_id d))
            cats with
    | Some c => Some (d, c)
    | None => None
    end
  else None.

(** Modelled from the spec: [FindById(memberId, id) -> Document | none], a
    document being owned by a member through its category.  The category
    joined to the document comes with it, as [document.category]. *)
Definition find_by_id (member_id : string) (document_id : Z)
  : Action (option (Document.t * Category.t)) := fun w =>
  (w, Return (first_some (owned (categories w) member_id document_id)
                (documents w))).

(** Modelled from the spec: [FindAllByCategory(memberId, categoryId) ->
    list<Document>]. *)
Definition find_all_by_category_id (member_id : string) (category_id : Z)
  : Action (list Document.t) := fun w =>
  (w, Return
        (List.filter
           (fun d =>
              bool_decide (Document.category_id d = category_id)
              && bool_decide
                   (is_Some (List.find
                               (CategoryRepository.is_category member_id category_id)
                               (categories w))))
           (documents w))).

(** Modelled from the spec: [SaveDocument(doc) -> generatedId].  The row is
    written at once (no rollback by the workflow) with the fields of the
    entity, the next key of the table and the creation time. *)
Definition save (env : Env) (edocument : EDocument.t) : Action Z := fun w =>
  if document_save_ok env then
    let document_id := document_seq w in
    let row :=
      Document.mk document_id (EDocument.name edocument) None
        (EDocument.s3_key edocument) (EDocument.format edocument)
        (EDocument.status edocument) (now env)
        (EDocument.category_id edocument) [] in
    (mkWorld (subscriptions w) (categories w) (documents w ++ [row])
       (document_uploads w) (document_seq w + 1) (document_upload_seq w)
       (bucket w) (queue w) (trace w ++ [DocumentSave document_id]),
     Return document_id)
  else (w, Raise DatabaseError).
End DocumentRepository.

Module DocumentUploadRepository.
(** Modelled from the spec: [FindAllByMember(memberId) ->
    list<DocumentUpload>]. *)
Definition find_all_by_member_id (member_id : string)
  : Action (list DocumentUpload.t) := fun w =>
  (w, Return
        (List.filter
           (fun du => bool_decide (DocumentUpload.member_id du = member_id))
           (document_uploads w))).

(** Modelled from the spec: [Save(record) -> generatedId], the record being
    (memberId, documentId, upload timestamp = now). *)
Definition save (env : Env) (document_upload : DocumentUpload.init)
  : Action Z := fun w =>
  if document_upload_save_ok env then
    let upload_id := document_upload_seq w in
    let row :=
      DocumentUpload.mk upload_id
        (DocumentUpload.init_member_id document_upload)
        (DocumentUpload.init_document_id document_upload) (now env) in
    (mkWorld (subscriptions w) (categories w) (documents w)
       (document_uploads w ++ [row]) (document_seq w)
       (document_upload_seq w + 1) (bucket w) (queue w)
       (trace w ++ [DocumentUploadSave upload_id]),
     Return upload_id)
  else (w, Raise DatabaseError).
End DocumentUploadRepository.

Module S3Client.
(** Modelled from the spec: Blob Store [Upload(bytes, key, metadataMap) ->
    void | Error].  A failed upload raises and stores nothing. *)
Definition upload_bytes_obj (env : Env) (obj_bytes : list Byte.byte)
    (key : string) (metadata : gmap string string) : Action unit := fun w =>
  if s3_upload_ok env then
    (mkWorld (subscriptions w) (categories w) (documents w)
       (document_uploads w) (document_seq w) (document_upload_seq w)
       (<[key := BucketObject.mk obj_bytes metadata]> (bucket w)) (queue w)
       (trace w ++ [S3Upload key true]), Return tt)
  else (set_trace w (trace w ++ [S3Upload key false]), Raise S3ClientError).

(** Modelled from the spec: Blob Store [Get(key) -> (bytes, Error)].  The
    key is the [s3_key] column of a document, which may be unset. *)
Definition get_object (key : option string) : Action BucketObject.t := fun w =>
  match key with
  | None => (w, Raise S3ClientError)
  | Some k =>
      let w' := set_trace w (trace w ++ [S3GetObject k]) in
      match bucket w !! k with
      | Some o => (w', Return o)
      | None => (w', Raise S3ClientError)
      end
  end.
End S3Client.

Module SQSClient.
(** Modelled from the spec: Work Queue [Enqueue(messagePayload) -> void |
    Error]. *)
Definition put (env : Env) (message : gmap string PyVal) : Action unit :=
  fun w =>
  if sqs_put_ok env then
    (mkWorld (subscriptions w) (categories w) (documents w)
       (document_uploads w) (document_seq w) (document_upload_seq w)
       (bucket w) (queue w ++ [message]) (trace w ++ [SQSPut message]),
     Return tt)
  else (w, Raise SQSClientError).
End SQSClient.

(** Modelled from the spec: the maximum character threshold (15,000) of
    [reminder.domain.document.constant], which is missing; the comment above
    the check in [upload_document] gives the same number. *)
Definition DOCUMENT_MAX_LEN : Z := 15000.

(** ** The question repositories

    [src/reminder/domain/question/repository.py]: three repositories that
    add objects to an ORM session, commit once and read the keys the commit
    gave the objects.  The session is SQLAlchemy's; what the repositories
    use of it is modelled here for one mapped class with columns [A]: an
    object is known by its reference, its key is unset until it is flushed,
    [add] marks a keyless object as pending once, and [commit] inserts the
    pending objects in the order they were added, giving each the next key
    of the table. *)

Module Orm.
Record object (A : Type) := mkObject {
  key : option Z;
  columns : A }.
Arguments mkObject {A} key columns.
Arguments key {A} o.
Arguments columns {A} o.

Record session (A : Type) := mkSession {
  objects : list (object A);
  pending : list nat;
  table : list (Z * A);
  sequence : Z }.
Arguments mkSession {A} objects pending table sequence.
Arguments objects {A} s.
Arguments pending {A} s.
Arguments table {A} s.
Arguments sequence {A} s.

(** The constructor of the mapped class: a new object, without a key. *)
Definition new {A} (a : A) (s : session A) : session A * nat :=
  (mkSession (objects s ++ [mkObject None a]) (pending s) (table s)
     (sequence s),
   length (objects s)).

(** [session.add(obj)]. *)
Definition add {A} (r : nat) (s : session A) : session A :=
  match objects s !! r with
  | Some o =>
      match key o with
      | None =>
          if bool_decide (r ∈ pending s) then s
          else mkSession (objects s) (pending s ++ [r]) (table s) (sequence s)
      | Some _ => s
      end
  | None => s
  end.

(** The INSERT of one pending object. *)
Definition insert {A} (s : session A) (r : nat) : session A :=
  match objects s !! r with
  | Some o =>
      match key o with
      | None =>
          mkSession (<[r := mkObject (Some (sequence s)) (columns o)]> (objects s))
            (pending s) (table s ++ [(sequence s, columns o)])
            (sequence s + 1)
      | Some _ => s
      end
  | None => s
  end.

Definition flush {A} (s : session A) : session A :=
  let s' := fold_left insert (pending s) s in
  mkSession (objects s') [] (table s') (sequence s').

(** [session.commit()]: all pending objects are inserted, or the commit
    raises and none is. *)
Definition commit {A} (ok : bool) (s : session A)
  : session A * Outcome unit :=
  if ok then (flush s, Return tt) else (s, Raise DatabaseError).

(** [obj.id], [None] while the object has no key. *)
Definition key_of {A} (s : session A) (r : nat) : option Z :=
  match objects s !! r with
  | Some o => key o
  | None => None
  end.

(** The keys [k], [k + 1], ... of [n] consecutive inserts. *)
Fixpoint keys_from (k : Z) (n : nat) : list Z :=
  match n with
  | O => []
  | S n' => k :: keys_from (k + 1) n'
  end.
End Orm.

(** Modelled from the spec: the entity of a question, whose declaration
    ([question/entity.py]) is missing, with the three attributes
    [_to_question] reads. *)
Module EQuestion.
Record t := mk {
  question : string;
  answer : string;
  document_id : Z }.
End EQuestion.

(** The columns [_to_question] sets on a new [Question]; the others are left
    to the defaults of the table. *)
Module QuestionColumns.
Record t := mk {
  question : string;
  answer : string;
  document_id : Z }.
End QuestionColumns.

Module QuestionRepository.
Definition _to_question (equestion : EQuestion.t) : QuestionColumns.t :=
  QuestionColumns.mk (EQuestion.question equestion)
    (EQuestion.answer equestion) (EQuestion.document_id equestion).

(** [[self._to_question(equestion) for equestion in equestions]]. *)
Fixpoint to_questions (equestions : list EQuestion.t)
    (session : Orm.session QuestionColumns.t)
  : Orm.session QuestionColumns.t * list nat :=
  match equestions with
  | [] => (session, [])
  | equestion :: equestions' =>
      let (session1, question) := Orm.new (_to_question equestion) session in
      let (session2, questions) := to_questions equestions' session1 in
      (session2, question :: questions)
  end.

Definition sync_save_all (commit_ok : bool) (equestions : list EQuestion.t)
    (session : Orm.session QuestionColumns.t)
  : Orm.session QuestionColumns.t * Outcome (list (option Z)) :=
  let (session1, questions) := to_questions equestions session in
  let session2 :=
    fold_left (fun s question => Orm.add question s) questions session1 in
  match Orm.commit commit_ok session2 with
  | (session3, Raise e) => (session3, Raise e)
  | (session3, Return _) =>
      (session3, Return (map (Orm.key_of session3) questions))
  end.
End QuestionRepository.

Module QuestionQuestionSetRepository.
Definition sync_save_all {A} (commit_ok : bool)
    (question_question_sets : list nat) (session : Orm.session A)
  : Orm.session A * Outcome (list (option Z)) :=
  let session1 :=
    fold_left (fun s question_question_set => Orm.add question_question_set s)
      question_question_sets session in
  match Orm.commit commit_ok session1 with
  | (session2, Raise e) => (session2, Raise e)
  | (session2, Return _) =>
      (session2, Return (map (Orm.key_of session2) question_question_sets))
  end.
End QuestionQuestionSetRepository.

Module QuestionSetRepository.
Definition sync_save {A} (commit_ok : bool) (question_set : nat)
    (session : Orm.session A) : Orm.session A * Outcome (option Z) :=
  let session1 := Orm.add question_set session in
  match Orm.commit commit_ok session1 with
  | (session2, Raise e) => (session2, Raise e)
  | (session2, Return _) => (session2, Return (Orm.key_of session2 question_set))
  end.
End QuestionSetRepository.

(** A session with two questions already saved, nothing pending, and two
    entities to save, equal to each other. *)
Definition scenario_session : Orm.session QuestionColumns.t :=
  Orm.mkSession
    [Orm.mkObject (Some 1) (QuestionColumns.mk "q1" "a1" 1);
     Orm.mkObject (Some 2) (QuestionColumns.mk "q2" "a2" 1)]
    []
    [(1, QuestionColumns.mk "q1" "a1" 1); (2, QuestionColumns.mk "q2" "a2" 1)]
    3.

Definition scenario_equestions : list EQuestion.t :=
  [EQuestion.mk "what" "this" 2; EQuestion.mk "what" "this" 2].

(** A session of question sets, columns a name, with two objects not yet
    saved. *)
Definition scenario_set_session : Orm.session string :=
  Orm.mkSession [Orm.mkObject None "monday"; Orm.mkObject None "tuesday"]
    [] [] 1.


(** ** DocumentService *)

Section DocumentService.

(** The monthly maxima of [reminder.domain.document.constant], which is
    missing: any two integers. *)
Variable FREE_PLAN_MONTHLY_MAX_DOCUMENT_NUM : Z.
Variable PRO_PLAN_MONTHLY_MAX_DOCUMENT_NUM : Z.

(** [EDocument.decode_contenet_str] and the bucket object's
    [decode_content_str]: the text of the bytes in the declared format, or
    a decoding failure. *)
Variable decode_contenet_str : EDocument.t -> option string.
Variable decode_content_str : BucketObject.t -> option string.

(** [str(plan_type.value)]. *)
Variable plan_value_str : SubscriptionPlanType -> string.

(** The result of a decoding, its failure raised. *)
Definition decoded {A} (o : option A) : Action A :=
  match o with
  | Some a => ret a
  | None => raise UnicodeDecodeError
  end.

(** The condition of the comprehension of lines 158 to 161. *)
Definition in_current_subscription (purchased_date expire_date : Z)
    (doc : DocumentUpload.t) : bool :=
  (DocumentUpload.upload_date doc >=? purchased_date)
  && (DocumentUpload.upload_date doc <? expire_date).

Definition get_num_uploaded_documents_for_current_subscription_by_member_id
    (member_id : string) : Action nat :=
  do current_subscription <-
    SubscriptionService.get_current_subscription_by_member_id member_id;
  let purchased_date := Subscription.purchased_date current_subscription in
  let expire_date := Subscription.expire_date current_subscription in
  do document_uploads <-
    DocumentUploadRepository.find_all_by_member_id member_id;
  let current_subscription_document_uploads :=
    List.filter (in_current_subscription purchased_date expire_date)
      document_uploads in
  ret (length current_subscription_document_uploads).

(** The plan limit check of [upload_document] (lines 62 to 70).  The
    [assert isinstance(plan_type, SubscriptionPlanType)] before it holds by
    the type of [plan_type]. *)
Definition ensure_plan_limit (plan_type : SubscriptionPlanType)
    (current_subscription_num_uploaded_documents : nat) : Action unit :=
  match plan_type with
  | FREE =>
      if Z.of_nat current_subscription_num_uploaded_documents
         >=? FREE_PLAN_MONTHLY_MAX_DOCUMENT_NUM
      then raise FreePlanDocumentUploadLimitExceedError
      else ret tt
  | PRO =>
      if Z.of_nat current_subscription_num_uploaded_documents
         >=? PRO_PLAN_MONTHLY_MAX_DOCUMENT_NUM
      then raise ProPlanDocumentUploadLimitExceedError
      else ret tt
  | OTHER _ => raise (ValueError "Invalid Plan Type")
  end.

(** The dictionary put on the queue (line 99). *)
Definition sqs_message (s3_key : string) (document_id : Z)
    (plan_type : SubscriptionPlanType) : gmap string PyVal :=
  <["s3_key" := PyStr s3_key]>
    (<["db_pk" := PyInt document_id]>
       (<["subscription_plan" := PyStr (plan_value_str plan_type)]> ∅)).

Definition upload_document (env : Env) (member_id : string)
    (edocument : EDocument.t) : Action UploadDocumentResponse.t :=
  do current_subscription <-
    SubscriptionService.get_current_subscription_by_member_id member_id;
  do current_subscription_num_uploaded_documents <-
    get_num_uploaded_documents_for_current_subscription_by_member_id member_id;
  let plan_type := Subscription.plan_type current_subscription in
  do_ ensure_plan_limit plan_type current_subscription_num_uploaded_documents;
  do content <- decoded (decode_contenet_str edocument);
  do_ (if Z.of_nat (String.length content) >=? DOCUMENT_MAX_LEN
       then raise DocumentMaxLengthExceedError else ret tt);
  let category_id := EDocument.category_id edocument in
  do category <- CategoryRepository.find_or_none_by_id member_id category_id;
  match category with
  | None => raise (CategoryNotFoundError category_id)
  | Some _ =>
      let s3_key := uuid4_hex env in
      do_ S3Client.upload_bytes_obj env (EDocument.content_bytes edocument)
            s3_key
            {["format" := format_value (EDocument.format edocument)]};
      do edocument <- assign_s3_key edocument s3_key;
      do document_id <- DocumentRepository.save env edocument;
      let document_upload := DocumentUpload.new member_id document_id in
      do document_upload_id <-
        DocumentUploadRepository.save env document_upload;
      do_ SQSClient.put env (sqs_message s3_key document_id plan_type);
      ret (UploadDocumentResponse.mk document_id)
  end.

(** The [DocumentResponseDto] built for a document (lines 116 to 118). *)
Definition to_document_response_dto (document : Document.t)
  : DocumentResponseDto.t :=
  DocumentResponseDto.mk (Document.id document) (Document.name document)
    (Document.summary document) (Document.created_at document).

Definition get_all_documents_by_category (member_id : string)
    (category_id : Z) : Action GetAllDocumentsByCategoryResponse.t :=
  do category <- CategoryRepository.find_or_none_by_id member_id category_id;
  match category with
  | None => raise (CategoryNotFoundError category_id)
  | Some _ =>
      do documents <-
        DocumentRepository.find_all_by_category_id member_id category_id;
      ret (GetAllDocumentsByCategoryResponse.mk
             (map to_document_response_dto documents))
  end.

(** The [QuestionResponseDto] built for a question (line 141). *)
Definition to_question_response_dto (q : Question.t)
  : QuestionResponseDto.t :=
  QuestionResponseDto.mk (Question.id q) (Question.question q)
    (Question.answer q).

(** The condition of the comprehension of lines 140 to 144. *)
Definition delivered (q : Question.t) : bool :=
  0 <? Question.delivered_count q.

Definition get_document_by_id (member_id : string) (document_id : Z)
  : Action GetDocumentResponse.t :=
  do found <- DocumentRepository.find_by_id member_id document_id;
  match found with
  | None => raise (DocumentNotFoundError document_id)
  | Some (document, category) =>
      let s3_key := Document.s3_key document in
      do bucket_obj <- S3Client.get_object s3_key;
      do content <- decoded (decode_content_str bucket_obj);
      ret (GetDocumentResponse.mk
             (Document.id document)
             (Document.status document)
             (CategoryResponseDto.mk (Category.id category)
                (Category.name category))
             (Document.name document)
             (Document.summary document)
             (Document.format document)
             (Document.created_at document)
             (map to_question_response_dto
                (List.filter delivered (Document.questions document)))
             content)
  end.

(** *** What the spec says the quota count is

    Written from the words of the spec, to be compared with the count the
    service computes: the upload records of the member whose timestamp
    falls within [purchased_date, expire_date), inclusive start, exclusive
    end. *)
Definition uploads_in_period (w : World) (member_id : string)
    (s : Subscription.t) : list DocumentUpload.t :=
  filter
    (fun du =>
       DocumentUpload.member_id du = member_id
       /\ Subscription.purchased_date s <= DocumentUpload.upload_date du
          < Subscription.expire_date s)
    (document_uploads w).

(** The world with one more upload record. *)
Definition add_upload (w : World) (du : DocumentUpload.t) : World :=
  mkWorld (subscriptions w) (categories w) (documents w)
    (document_uploads w ++ [du]) (document_seq w) (document_upload_seq w)
    (bucket w) (queue w) (trace w).

(** Requests of one member served one after the other, each in the world
    the one before it left. *)
Fixpoint upload_documents (member_id : string)
    (requests : list (Env * EDocument.t)) (w : World)
  : World * list (Outcome UploadDocumentResponse.t) :=
  match requests with
  | [] => (w, [])
  | (env, edocument) :: requests' =>
      let (w1, r) := upload_document env member_id edocument w in
      let (w2, rs) := upload_documents member_id requests' w1 in
      (w2, r :: rs)
  end.

(** A request made within the period of [s] that passes the size and
    category checks and meets no failure of the bucket, the tables or the
    queue. *)
Definition goes_through (w : World) (member_id : string)
    (s : Subscription.t) (request : Env * EDocument.t) : Prop :=
  Subscription.purchased_date s <= now (fst request)
    < Subscription.expire_date s
  /\ (exists content,
        decode_contenet_str (snd request) = Some content
        /\ Z.of_nat (String.length content) < DOCUMENT_MAX_LEN)
  /\ is_Some (List.find
                (CategoryRepository.is_category member_id
                   (EDocument.category_id (snd request)))
                (categories w))
  /\ s3_upload_ok (fst request) = true
  /\ document_save_ok (fst request) = true
  /\ document_upload_save_ok (fst request) = true
  /\ sqs_put_ok (fst request) = true.

(** *** The run of [upload_document], check by check

    The checks of steps 1 to 5 read the world and leave it as it is; the
    writes of steps 6 to 9 pass through the worlds [after_blob],
    [after_document], [after_upload] and [after_enqueue]. *)

(** The error of the plan limit check, if it raises one. *)
Definition limit_error (plan_type : SubscriptionPlanType) (n : nat)
  : option Error :=
  match plan_type with
  | FREE =>
      if FREE_PLAN_MONTHLY_MAX_DOCUMENT_NUM <=? Z.of_nat n
      then Some FreePlanDocumentUploadLimitExceedError else None
  | PRO =>
      if PRO_PLAN_MONTHLY_MAX_DOCUMENT_NUM <=? Z.of_nat n
      then Some ProPlanDocumentUploadLimitExceedError else None
  | OTHER _ => Some (ValueError "Invalid Plan Type")
  end.

(** The world once the bytes are in the bucket and the key is assigned. *)
Definition after_blob (env : Env) (e : EDocument.t) (w : World) : World :=
  mkWorld (subscriptions w) (categories w) (documents w)
    (document_uploads w) (document_seq w) (document_upload_seq w)
    (<[uuid4_hex env :=
         BucketObject.mk (EDocument.content_bytes e)
           {["format" := format_value (EDocument.format e)]}]> (bucket w))
    (queue w)
    ((trace w ++ [S3Upload (uuid4_hex env) true])
       ++ [AssignS3Key (uuid4_hex env)]).

(** The row [DocumentRepository.save] writes for the entity with its key. *)
Definition saved_document (env : Env) (e : EDocument.t) (w : World)
  : Document.t :=
  Document.mk (document_seq w) (EDocument.name e) None
    (Some (uuid4_hex env)) (EDocument.format e) (EDocument.status e)
    (now env) (EDocument.category_id e) [].

(** The world once the document row is written. *)
Definition after_document (env : Env) (e : EDocument.t) (w : World)
  : World :=
  mkWorld (subscriptions w) (categories w)
    (documents w ++ [saved_document env e w])
    (document_uploads w) (document_seq w + 1) (document_upload_seq w)
    (bucket (after_blob env e w)) (queue w)
    (trace (after_blob env e w) ++ [DocumentSave (document_seq w)]).

(** The row [DocumentUploadRepository.save] writes. *)
Definition saved_upload (env : Env) (member_id : string) (w : World)
  : DocumentUpload.t :=
  DocumentUpload.mk (document_upload_seq w) member_id (document_seq w)
    (now env).

(** The world once the upload record is written. *)
Definition after_upload (env : Env) (member_id : string) (e : EDocument.t)
    (w : World) : World :=
  mkWorld (subscriptions w) (categories w)
    (documents (after_document env e w))
    (document_uploads w ++ [saved_upload env member_id w])
    (document_seq w + 1) (document_upload_seq w + 1)
    (bucket (after_blob env e w)) (queue w)
    (trace (after_document env e w)
       ++ [DocumentUploadSave (document_upload_seq w)]).

(** The world once the message is on the queue. *)
Definition after_enqueue (env : Env) (member_id : string) (e : EDocument.t)
    (plan_type : SubscriptionPlanType) (w : World) : World :=
  let message := sqs_message (uuid4_hex env) (document_seq w) plan_type in
  mkWorld (subscriptions w) (categories w)
    (documents (after_document env e w))
    (document_uploads (after_upload env member_id e w))
    (document_seq w + 1) (document_upload_seq w + 1)
    (bucket (after_blob env e w)) (queue w ++ [message])
    (trace (after_upload env member_id e w) ++ [SQSPut message]).

(** Steps 6 to 9: each write either goes through or raises, leaving the
    writes before it in place. *)
Definition writes (env : Env) (member_id : string) (e : EDocument.t)
    (plan_type : SubscriptionPlanType) (w : World)
  : World * Outcome UploadDocumentResponse.t :=
  if s3_upload_ok env then
    if document_save_ok env then
      if document_upload_save_ok env then
        if sqs_put_ok env then
          (after_enqueue env member_id e plan_type w,
           Return (UploadDocumentResponse.mk (document_seq w)))
        else (after_upload env member_id e w, Raise SQSClientError)
      else (after_document env e w, Raise DatabaseError)
    else (after_blob env e w, Raise DatabaseError)
  else (set_trace w (trace w ++ [S3Upload (uuid4_hex env) false]),
        Raise S3ClientError).

(** Steps 1 to 5, each raising with the world untouched, then the writes. *)
Definition checks_and_writes (env : Env) (member_id : string)
    (e : EDocument.t) (w : World)
  : World * Outcome UploadDocumentResponse.t :=
  match subscriptions w !! member_id with
  | None => (w, Raise SubscriptionNotFoundError)
  | Some s =>
      match limit_error (Subscription.plan_type s)
              (length (uploads_in_period w member_id s)) with
      | Some err => (w, Raise err)
      | None =>
          match decode_contenet_str e with
          | None => (w, Raise UnicodeDecodeError)
          | Some content =>
              if DOCUMENT_MAX_LEN <=? Z.of_nat (String.length content)
              then (w, Raise DocumentMaxLengthExceedError)
              else
                match List.find
                        (CategoryRepository.is_category member_id
                           (EDocument.category_id e))
                        (categories w) with
                | None =>
                    (w, Raise (CategoryNotFoundError (EDocument.category_id e)))
                | Some _ => writes env member_id e (Subscription.plan_type s) w
                end
          end
      end
  end.

(** What one run of [upload_document] from [w] to [w'] must have added to
    the trace and to the documents table. *)
Definition blob_first (env : Env) (w w' : World) : Prop :=
  exists (evs : list Event) (docs : list Document.t),
    trace w' = trace w ++ evs
    /\ documents w' = documents w ++ docs
    /\ (forall (i : nat) (document_id : Z),
          evs !! i = Some (DocumentSave document_id) ->
          exists j1 j2 : nat,
            (j1 < j2 < i)%nat
            /\ evs !! j1 = Some (S3Upload (uuid4_hex env) true)
            /\ evs !! j2 = Some (AssignS3Key (uuid4_hex env)))
    /\ (forall (j j' : nat) (k k' : string),
          evs !! j = Some (AssignS3Key k) ->
          evs !! j' = Some (AssignS3Key k') -> j = j')
    /\ (forall d : Document.t,
          d ∈ docs ->
          Document.s3_key d = Some (uuid4_hex env)
          /\ exists i : nat, evs !! i = Some (DocumentSave (Document.id d)))
    /\ (s3_upload_ok env = false ->
        docs = []
        /\ forall (i : nat) (document_id : Z),
             evs !! i <> Some (DocumentSave document_id)).

(** Case analysis on a position in a trace of at most five events. *)
Ltac index_cases i :=
  destruct i as [|[|[|[|[|i]]]]]; cbn in *; try discriminate.

(** *** A scenario to run the service on

    Member [m1] is on the FREE plan for the period [100, 200) and owns
    category 7; category 8 is another member's and category 42 is nobody's.
    Of the upload records of [m1] one is dated at the start of the period,
    one within it and one exactly at its end.  Bytes decode to text one
    character a byte. *)

Definition scenario_decode (edocument : EDocument.t) : option string :=
  Some (String.string_of_list_byte (EDocument.content_bytes edocument)).

Definition scenario_decode_object (o : BucketObject.t) : option string :=
  Some (String.string_of_list_byte (BucketObject.obj_bytes o)).

Definition scenario_plan_value (plan_type : SubscriptionPlanType) : string :=
  match plan_type with
  | FREE => "FREE"
  | PRO => "PRO"
  | OTHER value => value
  end.

Definition scenario_subscription : Subscription.t :=
  Subscription.mk FREE 100 200.

Definition scenario_questions : list Question.t :=
  [Question.mk 1 "q1" "a1" 2 1;
   Question.mk 2 "q2" "a2" 0 1;
   Question.mk 3 "q3" "a3" 1 1].

Definition scenario_world : World :=
  mkWorld
    {["m1" := scenario_subscription]}
    [Category.mk 7 "m1" "notes"; Category.mk 8 "m2" "misc"]
    [Document.mk 1 "first" (Some "done") (Some "k1") (Format "TXT")
       "COMPLETED" 100 7 scenario_questions;
     Document.mk 2 "second" None (Some "k2") (Format "TXT")
       "UNPROCESSED" 150 7 [];
     Document.mk 3 "third" None (Some "k3") (Format "TXT")
       "UNPROCESSED" 150 8 []]
    [DocumentUpload.mk 1 "m1" 1 100;
     DocumentUpload.mk 2 "m1" 2 150;
     DocumentUpload.mk 3 "m2" 3 150;
     DocumentUpload.mk 4 "m1" 9 200]
    10 10
    {["k1" := BucketObject.mk [Byte.x68; Byte.x69] {["format" := "TXT"]}]}
    [] [].

(** [scenario_world] with a third upload of [m1] within the period. *)
Definition scenario_full_world : World :=
  add_upload scenario_world (DocumentUpload.mk 5 "m1" 2 160).

Definition scenario_env : Env :=
  mkEnv "3f2b8c1d9e4a4f6b8a7c5d2e1f0a9b8c" 160 true true true true.

Definition scenario_note : EDocument.t :=
  EDocument.mk [Byte.x68; Byte.x69] 7 "note" (Format "TXT") "UNPROCESSED" None.

(** A document of 15,000 characters, one of 14,999, and one for the category
    that does not exist. *)
Definition scenario_long : EDocument.t :=
  EDocument.mk (repeat Byte.x61 (Nat.mul 150 100)) 7 "long" (Format "TXT")
    "UNPROCESSED" None.

Definition scenario_almost : EDocument.t :=
  EDocument.mk (repeat Byte.x61 (Nat.pred (Nat.mul 150 100))) 7 "almost"
    (Format "TXT") "UNPROCESSED" None.

Definition scenario_stray : EDocument.t :=
  EDocument.mk [Byte.x68; Byte.x69] 42 "stray" (Format "TXT") "UNPROCESSED"
    None.

(** The payload of the queue message as the spec words it: a storageKey
    that is a string, a documentId that is an integer and a
    subscriptionPlan that is a string. *)
Definition payload_as_spec_names_it (message : gmap string PyVal) : Prop :=
  exists (k : string) (document_id : Z) (plan : string),
    message !! "storageKey" = Some (PyStr k)
    /\ message !! "documentId" = Some (PyInt document_id)
    /\ message !! "subscriptionPlan" = Some (PyStr plan).

(** *** Further notions, for the properties beyond the claims *)

(** The number of requests that returned. *)
Definition successes {A} (rs : list (Outcome A)) : nat :=
  length (List.filter is_return rs).

(** The maximum the plan limit check compares the count with, for the plans
    it knows. *)
Definition plan_maximum (plan_type : SubscriptionPlanType) : option Z :=
  match plan_type with
  | FREE => Some FREE_PLAN_MONTHLY_MAX_DOCUMENT_NUM
  | PRO => Some PRO_PLAN_MONTHLY_MAX_DOCUMENT_NUM
  | OTHER _ => None
  end.

(** The object [upload_document] puts in the bucket for an entity. *)
Definition stored_object (e : EDocument.t) : BucketObject.t :=
  BucketObject.mk (EDocument.content_bytes e)
    {["format" := format_value (EDocument.format e)]}.

(** The scenario's surroundings with the queue down, and with the documents
    table down. *)
Definition scenario_env_queue_down : Env :=
  mkEnv "3f2b8c1d9e4a4f6b8a7c5d2e1f0a9b8c" 160 true true true false.

Definition scenario_env_table_down : Env :=
  mkEnv "3f2b8c1d9e4a4f6b8a7c5d2e1f0a9b8c" 160 true false true true.

(** A subscription of [m1] whose period is empty, and the scenario's world
    with it. *)
Definition scenario_empty_period : Subscription.t :=
  Subscription.mk FREE 200 200.

Definition scenario_empty_period_world : World :=
  mkWorld {["m1" := scenario_empty_period]} (categories scenario_world)
    (documents scenario_world) (document_uploads scenario_world)
    (document_seq scenario_world) (document_upload_seq scenario_world)
    (bucket scenario_world) (queue scenario_world) (trace scenario_world).

(** The scenario's world with [m2] subscribed too, on the PRO plan. *)
Definition scenario_shared_world : World :=
  mkWorld
    (<["m2" := Subscription.mk PRO 0 1000]> (subscriptions scenario_world))
    (categories scenario_world) (documents scenario_world)
    (document_uploads scenario_world) (document_seq scenario_world)
    (document_upload_seq scenario_world) (bucket scenario_world)
    (queue scenario_world) (trace scenario_world).

(** ** Properties *)

Lemma counted_uploads_length (member_id : string) (p e : Z)
    (l : list DocumentUpload.t) :
  length
    (List.filter (in_current_subscription p e)
       (List.filter
          (fun du => bool_decide (DocumentUpload.member_id du = member_id))
          l))
  = length
      (filter
         (fun du =>
            DocumentUpload.member_id du = member_id
            /\ p <= DocumentUpload.upload_date du < e) l).
Proof.
  induction l as [|du l IH]; [reflexivity|].
  rewrite filter_cons. cbn [List.filter].
  unfold in_current_subscription in *.
  destruct (bool_decide_reflect (DocumentUpload.member_id du = member_id))
    as [Hm|Hm].
  - cbn [List.filter]. rewrite Z.geb_leb.
    destruct (Z.leb_spec p (DocumentUpload.upload_date du));
      destruct (Z.ltb_spec (DocumentUpload.upload_date du) e);
      cbn [andb]; destruct (decide _) as [Hd|Hd]; cbn [length];
      try (rewrite IH; reflexivity); try lia;
      exfalso; apply Hd; split; [assumption|lia].
  - destruct (decide _) as [[Hd _]|Hd]; [contradiction|]. apply IH.
Qed.

Lemma get_num_uploaded_eq (w : World) (member_id : string)
    (s : Subscription.t) :
  subscriptions w !! member_id = Some s ->
  get_num_uploaded_documents_for_current_subscription_by_member_id member_id w
  = (w, Return (length (uploads_in_period w member_id s))).
Proof.
  intros Hs.
  unfold get_num_uploaded_documents_for_current_subscription_by_member_id,
    bind, SubscriptionService.get_current_subscription_by_member_id,
    DocumentUploadRepository.find_all_by_member_id, ret, uploads_in_period.
  rewrite Hs. f_equal. f_equal. apply counted_uploads_length.
Qed.

Lemma get_num_uploaded_none (w : World) (member_id : string) :
  subscriptions w !! member_id = None ->
  get_num_uploaded_documents_for_current_subscription_by_member_id member_id w
  = (w, Raise SubscriptionNotFoundError).
Proof.
  intros Hs.
  unfold get_num_uploaded_documents_for_current_subscription_by_member_id,
    bind, SubscriptionService.get_current_subscription_by_member_id.
  rewrite Hs. reflexivity.
Qed.

Lemma uploads_in_period_add (w : World) (member_id : string)
    (s : Subscription.t) (du : DocumentUpload.t) :
  length (uploads_in_period (add_upload w du) member_id s)
  = Nat.add (length (uploads_in_period w member_id s))
      (if decide (DocumentUpload.member_id du = member_id
                  /\ Subscription.purchased_date s
                     <= DocumentUpload.upload_date du
                     < Subscription.expire_date s)
       then 1%nat else 0%nat).
Proof.
  unfold uploads_in_period, add_upload. cbn [document_uploads].
  rewrite filter_app, length_app. f_equal.
  rewrite filter_cons, filter_nil. destruct (decide _); reflexivity.
Qed.

Lemma ensure_plan_limit_eq (plan_type : SubscriptionPlanType) (n : nat)
    (w : World) :
  ensure_plan_limit plan_type n w
  = match limit_error plan_type n with
    | Some err => (w, Raise err)
    | None => (w, Return tt)
    end.
Proof.
  unfold ensure_plan_limit, limit_error.
  destruct plan_type; [| |reflexivity]; rewrite Z.geb_leb;
    match goal with |- context [?a <=? ?b] => destruct (a <=? b) end;
    reflexivity.
Qed.

Lemma upload_document_eq (env : Env) (member_id : string) (e : EDocument.t)
    (w : World) :
  upload_document env member_id e w = checks_and_writes env member_id e w.
Proof.
  unfold upload_document, checks_and_writes.
  unfold bind at 1.
  unfold SubscriptionService.get_current_subscription_by_member_id at 1.
  destruct (subscriptions w !! member_id) as [s|] eqn:Hs; [|reflexivity].
  unfold bind at 1. rewrite (get_num_uploaded_eq _ _ _ Hs).
  unfold bind at 1. rewrite ensure_plan_limit_eq.
  destruct (limit_error _ _); [reflexivity|].
  unfold bind at 1.
  destruct (decode_contenet_str e) as [content|]; [|reflexivity].
  cbn [decoded]. unfold ret at 1. unfold bind at 1. rewrite Z.geb_leb.
  destruct (DOCUMENT_MAX_LEN <=? _); [reflexivity|].
  unfold ret at 1. unfold bind at 1.
  unfold CategoryRepository.find_or_none_by_id.
  destruct (List.find _ _); [|reflexivity].
  unfold writes, bind, S3Client.upload_bytes_obj, assign_s3_key,
    DocumentRepository.save,
    DocumentUploadRepository.save, SQSClient.put, ret, set_trace.
  destruct (s3_upload_ok env); [|reflexivity]. cbn.
  destruct (document_save_ok env); [|reflexivity]. cbn.
  destruct (document_upload_save_ok env); [|reflexivity]. cbn.
  destruct (sqs_put_ok env); reflexivity.
Qed.

(** C1.  For a member with a current subscription, the count returned by
    [get_num_uploaded_documents_for_current_subscription_by_member_id] is
    the number of the member's upload records whose timestamp lies in
    [purchased_date, expire_date); the call changes nothing.  One more
    record dated exactly [expire_date] leaves the count as it is; one more
    record of the member dated exactly [purchased_date] (of a period that
    is not empty) raises it by one. *)
Theorem quota_count_is_half_open_interval (w : World) (member_id : string)
    (s : Subscription.t) :
  subscriptions w !! member_id = Some s ->
  exists n : nat,
    get_num_uploaded_documents_for_current_subscription_by_member_id
      member_id w = (w, Return n)
    /\ n = length (uploads_in_period w member_id s)
    /\ (forall du,
          DocumentUpload.upload_date du = Subscription.expire_date s ->
          get_num_uploaded_documents_for_current_subscription_by_member_id
            member_id (add_upload w du) = (add_upload w du, Return n))
    /\ (forall du,
          DocumentUpload.member_id du = member_id ->
          DocumentUpload.upload_date du = Subscription.purchased_date s ->
          Subscription.purchased_date s < Subscription.expire_date s ->
          get_num_uploaded_documents_for_current_subscription_by_member_id
            member_id (add_upload w du) = (add_upload w du, Return (S n))).
Proof.
  intros Hs. eexists. split; [apply (get_num_uploaded_eq _ _ _ Hs)|].
  split; [reflexivity|]. split.
  - intros du Hd.
    rewrite (get_num_uploaded_eq (add_upload w du) member_id s Hs).
    rewrite uploads_in_period_add.
    destruct (decide _) as [[_ H]|_]; [lia|].
    rewrite Nat.add_0_r. reflexivity.
  - intros du Hm Hd Hlt.
    rewrite (get_num_uploaded_eq (add_upload w du) member_id s Hs).
    rewrite uploads_in_period_add.
    destruct (decide _) as [_|H]; [|exfalso; apply H; split; [assumption|lia]].
    rewrite Nat.add_1_r. reflexivity.
Qed.

(** *** Plan limits *)

Lemma writes_raise (env : Env) (member_id : string) (e : EDocument.t)
    (plan_type : SubscriptionPlanType) (w : World) (err : Error) :
  snd (writes env member_id e plan_type w) = Raise err ->
  err = S3ClientError \/ err = DatabaseError \/ err = SQSClientError.
Proof.
  unfold writes.
  destruct (s3_upload_ok env), (document_save_ok env),
    (document_upload_save_ok env), (sqs_put_ok env);
    cbn [snd]; intros H; inversion H; auto.
Qed.

Lemma upload_goes_through (env : Env) (member_id : string)
    (e : EDocument.t) (w : World) (s : Subscription.t) :
  subscriptions w !! member_id = Some s ->
  limit_error (Subscription.plan_type s)
    (length (uploads_in_period w member_id s)) = None ->
  goes_through w member_id s (env, e) ->
  upload_document env member_id e w
  = (after_enqueue env member_id e (Subscription.plan_type s) w,
     Return (UploadDocumentResponse.mk (document_seq w))).
Proof.
  intros Hs Hl (_ & (content & Hc & Hlen) & [c Hcat] & H1 & H2 & H3 & H4).
  cbn [fst snd] in *.
  rewrite upload_document_eq. unfold checks_and_writes.
  rewrite Hs, Hl, Hc.
  destruct (Z.leb_spec DOCUMENT_MAX_LEN (Z.of_nat (String.length content)));
    [lia|].
  rewrite Hcat. unfold writes. rewrite H1, H2, H3, H4. reflexivity.
Qed.

Lemma uploads_in_period_after_enqueue (env : Env) (member_id : string)
    (e : EDocument.t) (plan_type : SubscriptionPlanType) (w : World)
    (s : Subscription.t) :
  Subscription.purchased_date s <= now env < Subscription.expire_date s ->
  length (uploads_in_period
            (after_enqueue env member_id e plan_type w) member_id s)
  = S (length (uploads_in_period w member_id s)).
Proof.
  intros Hnow. unfold uploads_in_period.
  cbn [after_enqueue after_upload document_uploads].
  rewrite filter_app, length_app, filter_cons, filter_nil.
  cbn [saved_upload DocumentUpload.member_id DocumentUpload.upload_date].
  destruct (decide _) as [_|H]; [cbn [length]; lia|].
  exfalso. apply H. split; [reflexivity|assumption].
Qed.

Lemma uploads_until_limit (member_id : string) (s : Subscription.t)
    (limit : Z) (err : Error) (last : Env * EDocument.t) :
  (forall n, limit_error (Subscription.plan_type s) n
             = if limit <=? Z.of_nat n then Some err else None) ->
  forall (requests : list (Env * EDocument.t)) (w : World),
    subscriptions w !! member_id = Some s ->
    Forall (goes_through w member_id s) requests ->
    Z.of_nat (length (uploads_in_period w member_id s))
      + Z.of_nat (length requests) = limit ->
    exists (w' : World) (rs : list (Outcome UploadDocumentResponse.t)),
      upload_documents member_id (requests ++ [last]) w
      = (w', rs ++ [Raise err])
      /\ length rs = length requests
      /\ Forall (fun r => is_return r = true) rs.
Proof.
  intros Hlimit requests.
  induction requests as [|[env e] requests IH]; intros w Hs Hall Hn.
  - exists w, []. split; [|split; [reflexivity|constructor]].
    destruct last as [env e]. cbn [app upload_documents].
    rewrite upload_document_eq. unfold checks_and_writes.
    rewrite Hs, Hlimit.
    destruct (Z.leb_spec limit
                (Z.of_nat (length (uploads_in_period w member_id s))));
      [reflexivity|cbn [length] in Hn; lia].
  - apply Forall_cons in Hall as [Hreq Hrest].
    assert (Hunder : limit_error (Subscription.plan_type s)
                       (length (uploads_in_period w member_id s)) = None).
    { rewrite Hlimit.
      destruct (Z.leb_spec limit
                  (Z.of_nat (length (uploads_in_period w member_id s))));
        [cbn [length] in Hn; lia|reflexivity]. }
    pose proof (upload_goes_through env member_id e w s Hs Hunder Hreq) as Hup.
    destruct Hreq as (Hnow & _). cbn [fst] in Hnow.
    destruct (IH (after_enqueue env member_id e (Subscription.plan_type s) w))
      as (w' & rs & Hrun & Hlen & Hret).
    + exact Hs.
    + eapply Forall_impl; [exact Hrest|]. intros req Hq. exact Hq.
    + rewrite (uploads_in_period_after_enqueue _ _ _ _ _ _ Hnow).
      cbn [length] in Hn. lia.
    + exists w', (Return (UploadDocumentResponse.mk (document_seq w)) :: rs).
      split; [|split].
      * cbn [app upload_documents]. rewrite Hup.
        change (requests ++ [last]) with (app requests [last]) in *.
        rewrite Hrun. reflexivity.
      * cbn [length]. rewrite Hlen. reflexivity.
      * constructor; [reflexivity|exact Hret].
Qed.

(** C2.  With [n] the upload count of the member's current period: a FREE
    plan with [n] at or above the FREE maximum makes [upload_document]
    raise the FREE limit error, a PRO plan with [n] at or above the PRO
    maximum the PRO one, in both cases with the world untouched; below the
    respective maximum neither limit error is raised.  Hence of requests
    that go through made within one period, those that bring the count up
    to the maximum succeed and the next request fails with the limit error
    of the plan. *)
Theorem plan_limit_enforced (env : Env) (member_id : string)
    (e : EDocument.t) (w : World) (s : Subscription.t) (n : nat) :
  subscriptions w !! member_id = Some s ->
  get_num_uploaded_documents_for_current_subscription_by_member_id
    member_id w = (w, Return n) ->
  (Subscription.plan_type s = FREE ->
   FREE_PLAN_MONTHLY_MAX_DOCUMENT_NUM <= Z.of_nat n ->
   upload_document env member_id e w
   = (w, Raise FreePlanDocumentUploadLimitExceedError))
  /\ (Subscription.plan_type s = PRO ->
      PRO_PLAN_MONTHLY_MAX_DOCUMENT_NUM <= Z.of_nat n ->
      upload_document env member_id e w
      = (w, Raise ProPlanDocumentUploadLimitExceedError))
  /\ (Subscription.plan_type s = FREE
      /\ Z.of_nat n < FREE_PLAN_MONTHLY_MAX_DOCUMENT_NUM
      \/ Subscription.plan_type s = PRO
         /\ Z.of_nat n < PRO_PLAN_MONTHLY_MAX_DOCUMENT_NUM ->
      snd (upload_document env member_id e w)
        <> Raise FreePlanDocumentUploadLimitExceedError
      /\ snd (upload_document env member_id e w)
           <> Raise ProPlanDocumentUploadLimitExceedError)
  /\ (forall requests,
        Subscription.plan_type s = FREE ->
        Forall (goes_through w member_id s) requests ->
        Z.of_nat n + Z.of_nat (length requests)
          = FREE_PLAN_MONTHLY_MAX_DOCUMENT_NUM ->
        exists (w' : World) (rs : list (Outcome UploadDocumentResponse.t)),
          upload_documents member_id (requests ++ [(env, e)]) w
          = (w', rs ++ [Raise FreePlanDocumentUploadLimitExceedError])
          /\ length rs = length requests
          /\ Forall (fun r => is_return r = true) rs)
  /\ (forall requests,
        Subscription.plan_type s = PRO ->
        Forall (goes_through w member_id s) requests ->
        Z.of_nat n + Z.of_nat (length requests)
          = PRO_PLAN_MONTHLY_MAX_DOCUMENT_NUM ->
        exists (w' : World) (rs : list (Outcome UploadDocumentResponse.t)),
          upload_documents member_id (requests ++ [(env, e)]) w
          = (w', rs ++ [Raise ProPlanDocumentUploadLimitExceedError])
          /\ length rs = length requests
          /\ Forall (fun r => is_return r = true) rs).
Proof.
  intros Hs Hn.
  rewrite (get_num_uploaded_eq _ _ _ Hs) in Hn.
  injection Hn as Hn. subst n.
  set (n := length (uploads_in_period w member_id s)) in *.
  split; [|split; [|split; [|split]]].
  - intros Hp Hge. rewrite upload_document_eq. unfold checks_and_writes.
    rewrite Hs. fold n. rewrite Hp. cbn [limit_error].
    destruct (Z.leb_spec FREE_PLAN_MONTHLY_MAX_DOCUMENT_NUM (Z.of_nat n));
      [reflexivity|lia].
  - intros Hp Hge. rewrite upload_document_eq. unfold checks_and_writes.
    rewrite Hs. fold n. rewrite Hp. cbn [limit_error].
    destruct (Z.leb_spec PRO_PLAN_MONTHLY_MAX_DOCUMENT_NUM (Z.of_nat n));
      [reflexivity|lia].
  - intros Hcase.
    assert (Hl : limit_error (Subscription.plan_type s) n = None).
    { destruct Hcase as [[Hp Hlt]|[Hp Hlt]]; rewrite Hp; cbn [limit_error];
        match goal with |- context [?a <=? ?b] =>
          destruct (Z.leb_spec a b) end; [lia|reflexivity|lia|reflexivity]. }
    rewrite upload_document_eq. unfold checks_and_writes.
    rewrite Hs. fold n. rewrite Hl.
    destruct (decode_contenet_str e); [|split; cbn; discriminate].
    destruct (DOCUMENT_MAX_LEN <=? _); [split; cbn; discriminate|].
    destruct (List.find _ _); [|split; cbn; discriminate].
    split; intros Hr; apply writes_raise in Hr;
      destruct Hr as [Hr|[Hr|Hr]]; discriminate.
  - intros requests Hp Hall Hsum.
    apply (uploads_until_limit member_id s
             FREE_PLAN_MONTHLY_MAX_DOCUMENT_NUM); try assumption.
    intros k. rewrite Hp. reflexivity.
  - intros requests Hp Hall Hsum.
    apply (uploads_until_limit member_id s
             PRO_PLAN_MONTHLY_MAX_DOCUMENT_NUM); try assumption.
    intros k. rewrite Hp. reflexivity.
Qed.

(** *** Order of the writes *)

Lemma blob_first_refl (env : Env) (w : World) : blob_first env w w.
Proof.
  exists [], []. rewrite !app_nil_r.
  repeat split; intros; try discriminate; try reflexivity.
  - match goal with H : _ ∈ [] |- _ => apply elem_of_nil in H; destruct H end.
  - match goal with H : _ ∈ [] |- _ => apply elem_of_nil in H; destruct H end.
Qed.

Lemma blob_first_writes (env : Env) (member_id : string) (e : EDocument.t)
    (plan_type : SubscriptionPlanType) (w : World) :
  blob_first env w (fst (writes env member_id e plan_type w)).
Proof.
  unfold writes.
  destruct (s3_upload_ok env) eqn:Hs3.
  - assert (Hdoc : forall d : Document.t,
               d ∈ [saved_document env e w] ->
               Document.s3_key d = Some (uuid4_hex env)
               /\ Document.id d = document_seq w).
    { intros d Hd. apply list_elem_of_singleton in Hd. subst d.
      split; reflexivity. }
    destruct (document_save_ok env);
      [destruct (document_upload_save_ok env);
         [destruct (sqs_put_ok env)|]|]; cbn [fst].
    + exists [S3Upload (uuid4_hex env) true; AssignS3Key (uuid4_hex env);
              DocumentSave (document_seq w);
              DocumentUploadSave (document_upload_seq w);
              SQSPut (sqs_message (uuid4_hex env) (document_seq w) plan_type)],
             [saved_document env e w].
      split; [cbn; rewrite <- !app_assoc; reflexivity|].
      split; [reflexivity|]. split; [|split; [|split]].
      * intros i id Hi. index_cases i. exists 0%nat, 1%nat.
        repeat split; lia.
      * intros j j' k k' Hj Hj'. index_cases j; index_cases j'. reflexivity.
      * intros d Hd. destruct (Hdoc d Hd) as [Hk Hid].
        split; [exact Hk|]. exists 2%nat. rewrite Hid. reflexivity.
      * intros Hf. congruence.
    + exists [S3Upload (uuid4_hex env) true; AssignS3Key (uuid4_hex env);
              DocumentSave (document_seq w);
              DocumentUploadSave (document_upload_seq w)],
             [saved_document env e w].
      split; [cbn; rewrite <- !app_assoc; reflexivity|].
      split; [reflexivity|]. split; [|split; [|split]].
      * intros i id Hi. index_cases i. exists 0%nat, 1%nat.
        repeat split; lia.
      * intros j j' k k' Hj Hj'. index_cases j; index_cases j'. reflexivity.
      * intros d Hd. destruct (Hdoc d Hd) as [Hk Hid].
        split; [exact Hk|]. exists 2%nat. rewrite Hid. reflexivity.
      * intros Hf. congruence.
    + exists [S3Upload (uuid4_hex env) true; AssignS3Key (uuid4_hex env);
              DocumentSave (document_seq w)],
             [saved_document env e w].
      split; [cbn; rewrite <- !app_assoc; reflexivity|].
      split; [reflexivity|]. split; [|split; [|split]].
      * intros i id Hi. index_cases i. exists 0%nat, 1%nat.
        repeat split; lia.
      * intros j j' k k' Hj Hj'. index_cases j; index_cases j'. reflexivity.
      * intros d Hd. destruct (Hdoc d Hd) as [Hk Hid].
        split; [exact Hk|]. exists 2%nat. rewrite Hid. reflexivity.
      * intros Hf. congruence.
    + exists [S3Upload (uuid4_hex env) true; AssignS3Key (uuid4_hex env)], [].
      split; [cbn; rewrite <- !app_assoc; reflexivity|].
      split; [cbn; rewrite app_nil_r; reflexivity|].
      split; [|split; [|split]].
      * intros i id Hi. index_cases i.
      * intros j j' k k' Hj Hj'. index_cases j; index_cases j'. reflexivity.
      * intros d Hd. apply elem_of_nil in Hd. destruct Hd.
      * intros Hf. congruence.
  - cbn [fst]. exists [S3Upload (uuid4_hex env) false], [].
    split; [reflexivity|]. split; [cbn; rewrite app_nil_r; reflexivity|].
    split; [|split; [|split]].
    + intros i id Hi. index_cases i.
    + intros j j' k k' Hj Hj'. index_cases j.
    + intros d Hd. apply elem_of_nil in Hd. destruct Hd.
    + intros _. split; [reflexivity|]. intros i id Hi. index_cases i.
Qed.

(** C3.  In every run of [upload_document] the events it adds to the trace
    and the rows it adds to the documents table are such that: a document
    save is preceded by the successful upload of the bytes under the drawn
    key and, after that upload, by the assignment of that key to the
    entity; the key is assigned at most once in the run; every row written
    carries the drawn key and has its save in the trace; and when the
    upload to the bucket fails no row is written and no save happens. *)
Theorem blob_upload_precedes_metadata (env : Env) (member_id : string)
    (e : EDocument.t) (w : World) :
  exists (evs : list Event) (docs : list Document.t),
    trace (fst (upload_document env member_id e w)) = trace w ++ evs
    /\ documents (fst (upload_document env member_id e w))
       = documents w ++ docs
    /\ (forall (i : nat) (document_id : Z),
          evs !! i = Some (DocumentSave document_id) ->
          exists j1 j2 : nat,
            (j1 < j2 < i)%nat
            /\ evs !! j1 = Some (S3Upload (uuid4_hex env) true)
            /\ evs !! j2 = Some (AssignS3Key (uuid4_hex env)))
    /\ (forall (j j' : nat) (k k' : string),
          evs !! j = Some (AssignS3Key k) ->
          evs !! j' = Some (AssignS3Key k') -> j = j')
    /\ (forall d : Document.t,
          d ∈ docs ->
          Document.s3_key d = Some (uuid4_hex env)
          /\ exists i : nat, evs !! i = Some (DocumentSave (Document.id d)))
    /\ (s3_upload_ok env = false ->
        docs = []
        /\ forall (i : nat) (document_id : Z),
             evs !! i <> Some (DocumentSave document_id)).
Proof.
  change (blob_first env w (fst (upload_document env member_id e w))).
  rewrite upload_document_eq. unfold checks_and_writes.
  destruct (subscriptions w !! member_id) as [s|]; [|apply blob_first_refl].
  destruct (limit_error _ _); [apply blob_first_refl|].
  destruct (decode_contenet_str e); [|apply blob_first_refl].
  destruct (DOCUMENT_MAX_LEN <=? _); [apply blob_first_refl|].
  destruct (List.find _ _); [|apply blob_first_refl].
  apply blob_first_writes.
Qed.

(** *** The successful run *)

Lemma upload_document_return (env : Env) (member_id : string)
    (e : EDocument.t) (w w' : World) (response : UploadDocumentResponse.t) :
  upload_document env member_id e w = (w', Return response) ->
  exists s : Subscription.t,
    subscriptions w !! member_id = Some s
    /\ w' = after_enqueue env member_id e (Subscription.plan_type s) w
    /\ response = UploadDocumentResponse.mk (document_seq w).
Proof.
  rewrite upload_document_eq. unfold checks_and_writes.
  destruct (subscriptions w !! member_id) as [s|]; [|discriminate].
  destruct (limit_error _ _); [discriminate|].
  destruct (decode_contenet_str e); [|discriminate].
  destruct (DOCUMENT_MAX_LEN <=? _); [discriminate|].
  destruct (List.find _ _); [|discriminate].
  unfold writes.
  destruct (s3_upload_ok env); [|discriminate].
  destruct (document_save_ok env); [|discriminate].
  destruct (document_upload_save_ok env); [|discriminate].
  destruct (sqs_put_ok env); [|discriminate].
  intros H. injection H as Hw Hr. exists s. auto.
Qed.

Lemma sqs_message_dom (s3_key : string) (document_id : Z)
    (plan_type : SubscriptionPlanType) :
  dom (sqs_message s3_key document_id plan_type)
  = ({["s3_key"; "db_pk"; "subscription_plan"]} : gset string).
Proof.
  unfold sqs_message. rewrite !dom_insert_L, dom_empty_L. set_solver.
Qed.

(** C4, as the code has it.  After a successful [upload_document] the
    queue holds one more message, a dictionary with exactly the three keys
    [s3_key], [db_pk] and [subscription_plan]: a string, the key drawn for
    the bucket; an integer, the key of the document row just written,
    which is also the id of the response; and a string,
    [str(plan_type.value)] of the member's plan. *)
Theorem queue_message_payload (env : Env) (member_id : string)
    (e : EDocument.t) (w w' : World) (response : UploadDocumentResponse.t) :
  upload_document env member_id e w = (w', Return response) ->
  exists (s : Subscription.t) (message : gmap string PyVal),
    subscriptions w !! member_id = Some s
    /\ queue w' = queue w ++ [message]
    /\ dom message = ({["s3_key"; "db_pk"; "subscription_plan"]} : gset string)
    /\ message !! "s3_key" = Some (PyStr (uuid4_hex env))
    /\ message !! "db_pk" = Some (PyInt (UploadDocumentResponse.id response))
    /\ message !! "subscription_plan"
       = Some (PyStr (plan_value_str (Subscription.plan_type s)))
    /\ exists d : Document.t,
         documents w' = documents w ++ [d]
         /\ Document.id d = UploadDocumentResponse.id response.
Proof.
  intros H. apply upload_document_return in H as (s & Hs & -> & ->).
  exists s, (sqs_message (uuid4_hex env) (document_seq w)
               (Subscription.plan_type s)).
  split; [exact Hs|]. split; [reflexivity|].
  split; [apply sqs_message_dom|].
  unfold sqs_message. cbn [UploadDocumentResponse.id].
  split; [apply lookup_insert_eq|].
  split; [rewrite lookup_insert_ne by discriminate; apply lookup_insert_eq|].
  split; [rewrite !lookup_insert_ne by discriminate; apply lookup_insert_eq|].
  exists (saved_document env e w). split; reflexivity.
Qed.

(** C9.  After a successful [upload_document] one key, the one drawn from
    [uuid4], is the key under which the bytes of the document lie in the
    bucket, the [s3_key] of the document row written, and the [s3_key] of
    the message put on the queue; the events of the run carry the same
    key. *)
Theorem one_storage_key (env : Env) (member_id : string)
    (e : EDocument.t) (w w' : World) (response : UploadDocumentResponse.t) :
  upload_document env member_id e w = (w', Return response) ->
  exists (d : Document.t) (message : gmap string PyVal)
         (upload_id : Z),
    bucket w' !! uuid4_hex env
    = Some (BucketObject.mk (EDocument.content_bytes e)
              {["format" := format_value (EDocument.format e)]})
    /\ documents w' = documents w ++ [d]
    /\ Document.id d = UploadDocumentResponse.id response
    /\ Document.s3_key d = Some (uuid4_hex env)
    /\ queue w' = queue w ++ [message]
    /\ message !! "s3_key" = Some (PyStr (uuid4_hex env))
    /\ trace w'
       = trace w
         ++ [S3Upload (uuid4_hex env) true; AssignS3Key (uuid4_hex env);
             DocumentSave (Document.id d); DocumentUploadSave upload_id;
             SQSPut message].
Proof.
  intros H. apply upload_document_return in H as (s & Hs & -> & ->).
  exists (saved_document env e w),
         (sqs_message (uuid4_hex env) (document_seq w)
            (Subscription.plan_type s)),
         (document_upload_seq w).
  split; [cbn; apply lookup_insert_eq|].
  do 4 (split; [reflexivity|]).
  split; [unfold sqs_message; apply lookup_insert_eq|].
  cbn. rewrite <- !app_assoc. reflexivity.
Qed.

(** C10.  For a member whose subscription, if any, has plan FREE or PRO,
    [upload_document] never raises the [ValueError] of the invalid plan
    type (nor any other [ValueError]). *)
Theorem invalid_plan_type_unreachable (env : Env) (member_id : string)
    (e : EDocument.t) (w : World) (msg : string) :
  (forall s : Subscription.t,
     subscriptions w !! member_id = Some s ->
     Subscription.plan_type s = FREE \/ Subscription.plan_type s = PRO) ->
  snd (upload_document env member_id e w) <> Raise (ValueError msg).
Proof.
  intros Hplan. rewrite upload_document_eq. unfold checks_and_writes.
  destruct (subscriptions w !! member_id) as [s|]; [|cbn; discriminate].
  destruct (limit_error _ _) as [err|] eqn:Hl.
  - cbn [snd]. intros Herr. injection Herr as ->.
    unfold limit_error in Hl.
    destruct (Hplan s eq_refl) as [Hp|Hp]; rewrite Hp in Hl;
      match type of Hl with context [?a <=? ?b] =>
        destruct (a <=? b) end; discriminate.
  - destruct (decode_contenet_str e); [|cbn; discriminate].
    destruct (DOCUMENT_MAX_LEN <=? _); [cbn; discriminate|].
    destruct (List.find _ _); [|cbn; discriminate].
    intros Hr. apply writes_raise in Hr.
    destruct Hr as [Hr|[Hr|Hr]]; discriminate.
Qed.

(** *** Checks before writes *)

Lemma ensure_plan_limit_return (plan_type : SubscriptionPlanType) (n : nat)
    (w : World) :
  ensure_plan_limit plan_type n w = (w, Return tt) ->
  limit_error plan_type n = None.
Proof.
  rewrite ensure_plan_limit_eq.
  destruct (limit_error plan_type n); [discriminate|reflexivity].
Qed.

Lemma passes_plan_limit (w : World) (member_id : string)
    (s : Subscription.t) (n : nat) :
  subscriptions w !! member_id = Some s ->
  get_num_uploaded_documents_for_current_subscription_by_member_id
    member_id w = (w, Return n) ->
  ensure_plan_limit (Subscription.plan_type s) n w = (w, Return tt) ->
  limit_error (Subscription.plan_type s)
    (length (uploads_in_period w member_id s)) = None.
Proof.
  intros Hs Hn Hl. rewrite (get_num_uploaded_eq _ _ _ Hs) in Hn.
  injection Hn as <-. exact (ensure_plan_limit_return _ _ _ Hl).
Qed.

Lemma find_category_none (member_id : string) (category_id : Z)
    (cats : list Category.t) :
  (forall c : Category.t,
     c ∈ cats ->
     ~ (Category.id c = category_id /\ Category.member_id c = member_id)) ->
  List.find (CategoryRepository.is_category member_id category_id) cats
  = None.
Proof.
  induction cats as [|c cats IH]; intros Hnone; [reflexivity|].
  cbn [List.find]. unfold CategoryRepository.is_category at 1.
  destruct (bool_decide_reflect (Category.id c = category_id)) as [Hi|Hi];
    [destruct (bool_decide_reflect (Category.member_id c = member_id))
       as [Hm|Hm]|]; cbn [andb].
  - exfalso. apply (Hnone c); [apply list_elem_of_here|split; assumption].
  - apply IH. intros c' Hc'. apply Hnone. apply list_elem_of_further, Hc'.
  - apply IH. intros c' Hc'. apply Hnone. apply list_elem_of_further, Hc'.
Qed.

Lemma find_category_some (member_id : string) (category_id : Z)
    (cats : list Category.t) (c : Category.t) :
  List.find (CategoryRepository.is_category member_id category_id) cats
  = Some c ->
  c ∈ cats /\ Category.id c = category_id /\ Category.member_id c = member_id.
Proof.
  intros H. apply List.find_some in H as [Hin Hc].
  split; [apply list_elem_of_In, Hin|].
  unfold CategoryRepository.is_category in Hc.
  apply andb_prop in Hc as [H1 H2].
  apply bool_decide_eq_true in H1. apply bool_decide_eq_true in H2. auto.
Qed.

(** C5, as the code has it.  For a document whose decoded text has 15,000
    characters or more, [upload_document] raises, with the world untouched,
    the maximum-length error or the error of a check before the length
    check (no subscription, a plan limit, an invalid plan type); it is the
    maximum-length error whenever the checks before the length check pass,
    that is, the member has a current subscription and the plan limit is not
    reached.  For a document whose decoded text is shorter than 15,000
    characters the maximum-length error is never raised. *)
Theorem document_length_check (env : Env) (member_id : string)
    (e : EDocument.t) (w : World) (content : string) :
  decode_contenet_str e = Some content ->
  (15000 <= Z.of_nat (String.length content) ->
   (exists err : Error,
      upload_document env member_id e w = (w, Raise err)
      /\ (err = DocumentMaxLengthExceedError
          \/ err = SubscriptionNotFoundError
          \/ err = FreePlanDocumentUploadLimitExceedError
          \/ err = ProPlanDocumentUploadLimitExceedError
          \/ err = ValueError "Invalid Plan Type"))
   /\ forall (s : Subscription.t) (n : nat),
        subscriptions w !! member_id = Some s ->
        get_num_uploaded_documents_for_current_subscription_by_member_id
          member_id w = (w, Return n) ->
        ensure_plan_limit (Subscription.plan_type s) n w = (w, Return tt) ->
        upload_document env member_id e w
        = (w, Raise DocumentMaxLengthExceedError))
  /\ (Z.of_nat (String.length content) < 15000 ->
      snd (upload_document env member_id e w)
      <> Raise DocumentMaxLengthExceedError).
Proof.
  intros Hc. change 15000 with DOCUMENT_MAX_LEN. split.
  - intros Hlen. split.
    + rewrite upload_document_eq. unfold checks_and_writes.
      destruct (subscriptions w !! member_id) as [s|]; [|eauto 10].
      destruct (limit_error _ _) as [err|] eqn:Hl.
      * exists err. split; [reflexivity|]. unfold limit_error in Hl.
        destruct (Subscription.plan_type s);
          [destruct (_ <=? _)|destruct (_ <=? _)|];
          inversion Hl; auto 10.
      * rewrite Hc.
        destruct (Z.leb_spec DOCUMENT_MAX_LEN
                    (Z.of_nat (String.length content))); [eauto 10|lia].
    + intros s n Hs Hn Hl.
      rewrite upload_document_eq. unfold checks_and_writes.
      rewrite Hs, (passes_plan_limit _ _ _ _ Hs Hn Hl), Hc.
      destruct (Z.leb_spec DOCUMENT_MAX_LEN
                  (Z.of_nat (String.length content))); [reflexivity|lia].
  - intros Hlen. rewrite upload_document_eq. unfold checks_and_writes.
    destruct (subscriptions w !! member_id) as [s|]; [|cbn; discriminate].
    destruct (limit_error _ _) as [err|] eqn:Hl.
    + cbn [snd]. intros Herr. injection Herr as ->.
      unfold limit_error in Hl.
      destruct (Subscription.plan_type s); [| |discriminate];
        match type of Hl with context [?a <=? ?b] =>
          destruct (a <=? b) end; discriminate.
    + rewrite Hc.
      destruct (Z.leb_spec DOCUMENT_MAX_LEN
                  (Z.of_nat (String.length content))); [lia|].
      destruct (List.find _ _); [|cbn; discriminate].
      intros Hr. apply writes_raise in Hr.
      destruct Hr as [Hr|[Hr|Hr]]; discriminate.
Qed.

(** C6.  Whenever [upload_document] raises the subscription-not-found
    error, a plan limit error, the maximum-length error or the
    category-not-found error, the world is what it was before the call: no
    object in the bucket, no row in the documents or uploads table, no
    message on the queue, no event in the trace.  In particular, when the
    member has no category with the id the document names, the call fails
    and leaves the world, trace of bucket calls included, as it was; the
    error is the category-not-found error once the checks before it
    pass. *)
Theorem fail_fast_no_side_effects (env : Env) (member_id : string)
    (e : EDocument.t) (w : World) :
  (forall err : Error,
     snd (upload_document env member_id e w) = Raise err ->
     err = SubscriptionNotFoundError
     \/ err = FreePlanDocumentUploadLimitExceedError
     \/ err = ProPlanDocumentUploadLimitExceedError
     \/ err = DocumentMaxLengthExceedError
     \/ (exists category_id, err = CategoryNotFoundError category_id) ->
     fst (upload_document env member_id e w) = w)
  /\ ((forall c : Category.t,
         c ∈ categories w ->
         ~ (Category.id c = EDocument.category_id e
            /\ Category.member_id c = member_id)) ->
      fst (upload_document env member_id e w) = w
      /\ is_return (snd (upload_document env member_id e w)) = false
      /\ forall (s : Subscription.t) (n : nat) (content : string),
           subscriptions w !! member_id = Some s ->
           get_num_uploaded_documents_for_current_subscription_by_member_id
             member_id w = (w, Return n) ->
           ensure_plan_limit (Subscription.plan_type s) n w
           = (w, Return tt) ->
           decode_contenet_str e = Some content ->
           Z.of_nat (String.length content) < DOCUMENT_MAX_LEN ->
           snd (upload_document env member_id e w)
           = Raise (CategoryNotFoundError (EDocument.category_id e))).
Proof.
  split.
  - intros err. rewrite upload_document_eq. unfold checks_and_writes.
    destruct (subscriptions w !! member_id) as [s|]; [|reflexivity].
    destruct (limit_error _ _); [reflexivity|].
    destruct (decode_contenet_str e); [|reflexivity].
    destruct (DOCUMENT_MAX_LEN <=? _); [reflexivity|].
    destruct (List.find _ _); [|reflexivity].
    intros Hr Herr. apply writes_raise in Hr.
    destruct Herr as [->|[->|[->|[->|[cid ->]]]]];
      destruct Hr as [Hr|[Hr|Hr]]; discriminate.
  - intros Hnone.
    pose proof (find_category_none member_id (EDocument.category_id e)
                  (categories w) Hnone) as Hfind.
    split; [|split].
    + rewrite upload_document_eq. unfold checks_and_writes.
      destruct (subscriptions w !! member_id) as [s|]; [|reflexivity].
      destruct (limit_error _ _); [reflexivity|].
      destruct (decode_contenet_str e); [|reflexivity].
      destruct (DOCUMENT_MAX_LEN <=? _); [reflexivity|].
      rewrite Hfind. reflexivity.
    + rewrite upload_document_eq. unfold checks_and_writes.
      destruct (subscriptions w !! member_id) as [s|]; [|reflexivity].
      destruct (limit_error _ _); [reflexivity|].
      destruct (decode_contenet_str e); [|reflexivity].
      destruct (DOCUMENT_MAX_LEN <=? _); [reflexivity|].
      rewrite Hfind. reflexivity.
    + intros s n content Hs Hn Hl Hc Hlen.
      rewrite upload_document_eq. unfold checks_and_writes.
      rewrite Hs, (passes_plan_limit _ _ _ _ Hs Hn Hl), Hc.
      destruct (Z.leb_spec DOCUMENT_MAX_LEN
                  (Z.of_nat (String.length content))); [lia|].
      rewrite Hfind. reflexivity.
Qed.

(** *** Retrieval *)

Lemma find_category_exists (member_id : string) (category_id : Z)
    (cats : list Category.t) (c : Category.t) :
  c ∈ cats ->
  Category.id c = category_id ->
  Category.member_id c = member_id ->
  is_Some (List.find (CategoryRepository.is_category member_id category_id)
             cats).
Proof.
  intros Hin Hi Hm.
  destruct (List.find _ cats) as [c'|] eqn:Hfind; [eexists; reflexivity|].
  exfalso.
  pose proof (List.find_none _ _ Hfind c (proj1 (list_elem_of_In _ _) Hin))
    as Hc.
  unfold CategoryRepository.is_category in Hc.
  rewrite !bool_decide_eq_true_2 in Hc by assumption. discriminate.
Qed.

Lemma first_some_none {A B} (f : A -> option B) (l : list A) :
  (forall x : A, x ∈ l -> f x = None) ->
  DocumentRepository.first_some f l = None.
Proof.
  induction l as [|x l IH]; intros Hall; [reflexivity|].
  cbn [DocumentRepository.first_some].
  rewrite (Hall x (list_elem_of_here _ _)).
  apply IH. intros y Hy. apply Hall, list_elem_of_further, Hy.
Qed.

Lemma first_some_some {A B} (f : A -> option B) (l : list A) (y : B) :
  DocumentRepository.first_some f l = Some y ->
  exists x : A, x ∈ l /\ f x = Some y.
Proof.
  induction l as [|x l IH]; [discriminate|].
  cbn [DocumentRepository.first_some].
  destruct (f x) as [y'|] eqn:Hfx.
  - intros H. injection H as ->. exists x.
    split; [apply list_elem_of_here|exact Hfx].
  - intros H. destruct (IH H) as (x' & Hin & Hx').
    exists x'. split; [apply list_elem_of_further, Hin|exact Hx'].
Qed.

Lemma delivered_sublist (qs : list Question.t) :
  sublist (List.filter delivered qs) qs.
Proof.
  induction qs as [|q qs IH]; [constructor|].
  cbn [List.filter]. destruct (delivered q).
  - apply sublist_skip, IH.
  - apply sublist_cons, IH.
Qed.

Lemma category_documents_filter (b : bool) (category_id : Z)
    (docs : list Document.t) :
  b = true ->
  List.filter
    (fun d => bool_decide (Document.category_id d = category_id) && b) docs
  = filter (fun d => Document.category_id d = category_id) docs.
Proof.
  intros ->. induction docs as [|d docs IH]; [reflexivity|].
  cbn [List.filter]. rewrite filter_cons, andb_true_r.
  destruct (bool_decide_reflect (Document.category_id d = category_id));
    destruct (decide _); try contradiction; rewrite IH; reflexivity.
Qed.

(** C7.  [get_document_by_id] raises the document-not-found error, and
    changes nothing, when no document with the id has a category owned by
    the member.  When it returns, the response is that of a document [d]
    of the table with the id, whose category the member owns, and its
    questions are the responses to a list [qs] of questions of [d] that
    keeps their order, holds no question whose delivered count is 0 and
    holds every question of [d] whose delivered count is above zero. *)
Theorem get_document_by_id_delivered_questions (member_id : string)
    (document_id : Z) (w : World) :
  ((forall (d : Document.t) (c : Category.t),
      d ∈ documents w -> c ∈ categories w ->
      Document.id d = document_id ->
      Category.id c = Document.category_id d ->
      Category.member_id c <> member_id) ->
   get_document_by_id member_id document_id w
   = (w, Raise (DocumentNotFoundError document_id)))
  /\ (forall (w' : World) (response : GetDocumentResponse.t),
        get_document_by_id member_id document_id w = (w', Return response) ->
        exists (d : Document.t) (c : Category.t) (qs : list Question.t),
          d ∈ documents w /\ Document.id d = document_id
          /\ c ∈ categories w
          /\ Category.id c = Document.category_id d
          /\ Category.member_id c = member_id
          /\ GetDocumentResponse.questions response
             = map (fun q =>
                      QuestionResponseDto.mk (Question.id q)
                        (Question.question q) (Question.answer q)) qs
          /\ sublist qs (Document.questions d)
          /\ (forall q : Question.t,
                q ∈ qs -> Question.delivered_count q <> 0)
          /\ (forall q : Question.t,
                q ∈ Document.questions d ->
                0 < Question.delivered_count q -> q ∈ qs)).
Proof.
  unfold get_document_by_id, bind, DocumentRepository.find_by_id. split.
  - intros Hnone. rewrite first_some_none; [reflexivity|].
    intros d Hd. unfold DocumentRepository.owned.
    destruct (bool_decide_reflect (Document.id d = document_id)) as [Hi|Hi];
      [|reflexivity].
    destruct (List.find _ _) as [c|] eqn:Hfind; [|reflexivity].
    apply find_category_some in Hfind as (Hc & Hci & Hcm).
    exfalso. exact (Hnone d c Hd Hc Hi Hci Hcm).
  - intros w' response.
    destruct (DocumentRepository.first_some _ _) as [[d c]|] eqn:Hfound;
      [|discriminate].
    apply first_some_some in Hfound as (d' & Hd' & Howned).
    unfold DocumentRepository.owned in Howned.
    destruct (bool_decide_reflect (Document.id d' = document_id)) as [Hi|Hi];
      [|discriminate].
    destruct (List.find _ _) as [c'|] eqn:Hfind; [|discriminate].
    injection Howned as -> ->.
    apply find_category_some in Hfind as (Hc & Hci & Hcm).
    unfold S3Client.get_object.
    destruct (Document.s3_key d) as [key|]; [|discriminate].
    destruct (bucket w !! key) as [o|]; [|discriminate].
    destruct (decode_content_str o) as [content|]; [|discriminate].
    cbn [decoded]. unfold ret. intros H. injection H as _ <-.
    exists d, c, (List.filter delivered (Document.questions d)).
    cbn [GetDocumentResponse.questions].
    repeat (split; [assumption || reflexivity|]).
    split; [apply delivered_sublist|]. split.
    + intros q Hq. apply list_elem_of_In, List.filter_In in Hq as [_ Hq].
      unfold delivered in Hq. apply Z.ltb_lt in Hq. lia.
    + intros q Hq Hpos. apply list_elem_of_In, List.filter_In.
      split; [apply list_elem_of_In, Hq|].
      unfold delivered. apply Z.ltb_lt, Hpos.
Qed.

(** C8.  [get_all_documents_by_category] raises the category-not-found
    error when the member has no category with the id.  Otherwise it
    returns, for every document of that category and for no other, in the
    order of the table, the four fields id, name, summary and creation
    time; the world is left as it was, trace of bucket calls included, and
    neither the content nor the questions of a document are part of the
    response. *)
Theorem get_all_documents_by_category_projection (member_id : string)
    (category_id : Z) (w : World) :
  ((forall c : Category.t,
      c ∈ categories w ->
      ~ (Category.id c = category_id /\ Category.member_id c = member_id)) ->
   get_all_documents_by_category member_id category_id w
   = (w, Raise (CategoryNotFoundError category_id)))
  /\ ((exists c : Category.t,
         c ∈ categories w /\ Category.id c = category_id
         /\ Category.member_id c = member_id) ->
      get_all_documents_by_category member_id category_id w
      = (w, Return
              (GetAllDocumentsByCategoryResponse.mk
                 (map (fun d =>
                         DocumentResponseDto.mk (Document.id d)
                           (Document.name d) (Document.summary d)
                           (Document.created_at d))
                    (filter (fun d => Document.category_id d = category_id)
                       (documents w)))))).
Proof.
  unfold get_all_documents_by_category, bind,
    CategoryRepository.find_or_none_by_id,
    DocumentRepository.find_all_by_category_id, ret.
  split.
  - intros Hnone. rewrite (find_category_none _ _ _ Hnone). reflexivity.
  - intros (c & Hc & Hi & Hm).
    destruct (find_category_exists _ _ _ _ Hc Hi Hm) as [c' Hfind].
    rewrite Hfind.
    rewrite category_documents_filter;
      [reflexivity|apply bool_decide_eq_true_2; exists c'; exact Hfind].
Qed.

(** ** Properties beyond the claims *)

(** *** How a run of [upload_document] can end *)

Lemma upload_document_run (env : Env) (member_id : string) (e : EDocument.t)
    (w : World) :
  (exists err : Error,
     upload_document env member_id e w = (w, Raise err)
     /\ err <> S3ClientError /\ err <> DatabaseError /\ err <> SQSClientError)
  \/ (exists (s : Subscription.t) (content : string) (c : Category.t),
        subscriptions w !! member_id = Some s
        /\ limit_error (Subscription.plan_type s)
             (length (uploads_in_period w member_id s)) = None
        /\ decode_contenet_str e = Some content
        /\ Z.of_nat (String.length content) < DOCUMENT_MAX_LEN
        /\ List.find
             (CategoryRepository.is_category member_id
                (EDocument.category_id e)) (categories w) = Some c
        /\ upload_document env member_id e w
           = writes env member_id e (Subscription.plan_type s) w).
Proof.
  rewrite upload_document_eq. unfold checks_and_writes.
  destruct (subscriptions w !! member_id) as [s|] eqn:Hs;
    [|left; eexists; repeat split; discriminate].
  destruct (limit_error _ _) as [err|] eqn:Hl.
  { left. exists err. split; [reflexivity|]. unfold limit_error in Hl.
    destruct (Subscription.plan_type s);
      [destruct (_ <=? _)|destruct (_ <=? _)|];
      inversion Hl; repeat split; discriminate. }
  destruct (decode_contenet_str e) as [content|] eqn:Hc;
    [|left; eexists; repeat split; discriminate].
  destruct (Z.leb_spec DOCUMENT_MAX_LEN (Z.of_nat (String.length content)));
    [left; eexists; repeat split; discriminate|].
  destruct (List.find _ _) as [c|] eqn:Hcat;
    [|left; eexists; repeat split; discriminate].
  right. exists s, content, c. repeat split; assumption || reflexivity.
Qed.

Lemma limit_error_none (plan_type : SubscriptionPlanType) (n : nat) :
  limit_error plan_type n = None <->
  (plan_type = FREE /\ Z.of_nat n < FREE_PLAN_MONTHLY_MAX_DOCUMENT_NUM)
  \/ (plan_type = PRO /\ Z.of_nat n < PRO_PLAN_MONTHLY_MAX_DOCUMENT_NUM).
Proof.
  unfold limit_error. destruct plan_type.
  - destruct (Z.leb_spec FREE_PLAN_MONTHLY_MAX_DOCUMENT_NUM (Z.of_nat n)).
    + split; [discriminate|]. intros [[_ H']|[H' _]]; [lia|discriminate].
    + split; [left; auto|reflexivity].
  - destruct (Z.leb_spec PRO_PLAN_MONTHLY_MAX_DOCUMENT_NUM (Z.of_nat n)).
    + split; [discriminate|]. intros [[H' _]|[_ H']]; [discriminate|lia].
    + split; [right; auto|reflexivity].
  - split; [discriminate|]. intros [[H' _]|[H' _]]; discriminate.
Qed.

(** X1.  [upload_document] returns a response exactly when every check
    passes and every write goes through: the member has a current
    subscription, its plan is FREE or PRO with the count of the period below
    the maximum of the plan, the content decodes to fewer than 15,000
    characters, the member has the category the document names, and the
    bucket, the two tables and the queue all accept their write. *)
Theorem upload_document_returns_iff (env : Env) (member_id : string)
    (e : EDocument.t) (w : World) :
  is_return (snd (upload_document env member_id e w)) = true <->
  exists (s : Subscription.t) (n : nat) (content : string) (c : Category.t),
    subscriptions w !! member_id = Some s
    /\ get_num_uploaded_documents_for_current_subscription_by_member_id
         member_id w = (w, Return n)
    /\ (Subscription.plan_type s = FREE
        /\ Z.of_nat n < FREE_PLAN_MONTHLY_MAX_DOCUMENT_NUM
        \/ Subscription.plan_type s = PRO
           /\ Z.of_nat n < PRO_PLAN_MONTHLY_MAX_DOCUMENT_NUM)
    /\ decode_contenet_str e = Some content
    /\ Z.of_nat (String.length content) < 15000
    /\ c ∈ categories w
    /\ Category.id c = EDocument.category_id e
    /\ Category.member_id c = member_id
    /\ s3_upload_ok env = true
    /\ document_save_ok env = true
    /\ document_upload_save_ok env = true
    /\ sqs_put_ok env = true.
Proof.
  change 15000 with DOCUMENT_MAX_LEN. split.
  - intros Hret.
    destruct (upload_document_run env member_id e w)
      as [(err & Hrun & _)|(s & content & c & Hs & Hl & Hc & Hlen & Hcat & Hrun)];
      rewrite Hrun in Hret; [discriminate|].
    apply find_category_some in Hcat as (Hin & Hid & Hm).
    apply limit_error_none in Hl.
    exists s, (length (uploads_in_period w member_id s)), content, c.
    split; [exact Hs|]. split; [apply get_num_uploaded_eq, Hs|].
    split; [exact Hl|]. do 5 (split; [assumption|]).
    unfold writes in Hret.
    destruct (s3_upload_ok env), (document_save_ok env),
      (document_upload_save_ok env), (sqs_put_ok env);
      try discriminate; auto.
  - intros (s & n & content & c & Hs & Hn & Hl & Hc & Hlen & Hin & Hid & Hm
            & H1 & H2 & H3 & H4).
    rewrite (get_num_uploaded_eq _ _ _ Hs) in Hn. injection Hn as <-.
    apply limit_error_none in Hl.
    destruct (find_category_exists _ _ _ _ Hin Hid Hm) as [c' Hfind].
    rewrite upload_document_eq. unfold checks_and_writes.
    rewrite Hs, Hl, Hc.
    destruct (Z.leb_spec DOCUMENT_MAX_LEN (Z.of_nat (String.length content)));
      [lia|].
    rewrite Hfind. unfold writes. rewrite H1, H2, H3, H4. reflexivity.
Qed.

(** *** Writes that stay, and what they do to the count *)

Lemma uploads_in_period_snoc (w w' : World) (member_id : string)
    (s : Subscription.t) (du : DocumentUpload.t) :
  document_uploads w' = document_uploads w ++ [du] ->
  length (uploads_in_period w' member_id s)
  = Nat.add (length (uploads_in_period w member_id s))
      (if decide (DocumentUpload.member_id du = member_id
                  /\ Subscription.purchased_date s
                     <= DocumentUpload.upload_date du
                     < Subscription.expire_date s)
       then 1%nat else 0%nat).
Proof.
  intros Hd. unfold uploads_in_period. rewrite Hd.
  rewrite filter_app, length_app. f_equal.
  rewrite filter_cons, filter_nil. destruct (decide _); reflexivity.
Qed.

Lemma uploads_in_period_same (w w' : World) (member_id : string)
    (s : Subscription.t) :
  document_uploads w' = document_uploads w ->
  uploads_in_period w' member_id s = uploads_in_period w member_id s.
Proof. intros Hd. unfold uploads_in_period. rewrite Hd. reflexivity. Qed.

Lemma writes_subscriptions (env : Env) (member_id : string) (e : EDocument.t)
    (plan_type : SubscriptionPlanType) (w : World) :
  subscriptions (fst (writes env member_id e plan_type w)) = subscriptions w
  /\ categories (fst (writes env member_id e plan_type w)) = categories w.
Proof.
  unfold writes.
  destruct (s3_upload_ok env), (document_save_ok env),
    (document_upload_save_ok env), (sqs_put_ok env); split; reflexivity.
Qed.

Lemma upload_document_subscriptions (env : Env) (member_id : string)
    (e : EDocument.t) (w : World) :
  subscriptions (fst (upload_document env member_id e w)) = subscriptions w
  /\ categories (fst (upload_document env member_id e w)) = categories w.
Proof.
  destruct (upload_document_run env member_id e w)
    as [(err & Hrun & _)|(s & content & c & _ & _ & _ & _ & _ & Hrun)];
    rewrite Hrun; [split; reflexivity|apply writes_subscriptions].
Qed.

(** X2.  [upload_document] undoes nothing.  When it raises the error of a
    table or of the queue, the bytes of the document are in the bucket under
    the drawn key and stay there, and no message is on the queue; if it was
    the documents table that failed no row is written; if it was the uploads
    table the document row is written and no upload record; if it was the
    queue both rows are written. *)
Theorem failed_write_keeps_earlier_writes (env : Env) (member_id : string)
    (e : EDocument.t) (w : World) (err : Error) :
  snd (upload_document env member_id e w) = Raise err ->
  err = DatabaseError \/ err = SQSClientError ->
  bucket (fst (upload_document env member_id e w))
  = <[uuid4_hex env :=
        BucketObject.mk (EDocument.content_bytes e)
          {["format" := format_value (EDocument.format e)]}]> (bucket w)
  /\ queue (fst (upload_document env member_id e w)) = queue w
  /\ (document_save_ok env = false ->
      documents (fst (upload_document env member_id e w)) = documents w
      /\ document_uploads (fst (upload_document env member_id e w))
         = document_uploads w)
  /\ (document_save_ok env = true ->
      (exists d : Document.t,
         documents (fst (upload_document env member_id e w))
         = documents w ++ [d]
         /\ Document.s3_key d = Some (uuid4_hex env))
      /\ (document_upload_save_ok env = false ->
          err = DatabaseError
          /\ document_uploads (fst (upload_document env member_id e w))
             = document_uploads w)
      /\ (document_upload_save_ok env = true ->
          err = SQSClientError
          /\ exists du : DocumentUpload.t,
               document_uploads (fst (upload_document env member_id e w))
               = document_uploads w ++ [du]
               /\ DocumentUpload.member_id du = member_id)).
Proof.
  intros Hraise Herr.
  destruct (upload_document_run env member_id e w)
    as [(err' & Hrun & H1 & H2 & H3)
       |(s & content & c & _ & _ & _ & _ & _ & Hrun)];
    rewrite Hrun in *.
  - cbn [snd] in Hraise. injection Hraise as ->.
    destruct Herr as [->| ->]; contradiction.
  - unfold writes in *.
    destruct (s3_upload_ok env);
      [|cbn [snd] in Hraise; injection Hraise as <-;
        destruct Herr; discriminate].
    destruct (document_save_ok env).
    + destruct (document_upload_save_ok env).
      * destruct (sqs_put_ok env); [discriminate|].
        cbn [snd fst] in *. injection Hraise as <-.
        split; [reflexivity|]. split; [reflexivity|].
        split; [discriminate|]. intros _.
        split; [exists (saved_document env e w); split; reflexivity|].
        split; [discriminate|]. intros _. split; [reflexivity|].
        exists (saved_upload env member_id w). split; reflexivity.
      * cbn [snd fst] in *. injection Hraise as <-.
        split; [reflexivity|]. split; [reflexivity|].
        split; [discriminate|]. intros _.
        split; [exists (saved_document env e w); split; reflexivity|].
        split; [intros _; split; reflexivity|discriminate].
    + cbn [snd fst] in *. injection Hraise as <-.
      split; [reflexivity|]. split; [reflexivity|].
      split; [intros _; split; reflexivity|discriminate].
Qed.

(** X3.  A successful [upload_document] raises the count of the member's
    current period by one when the time of the call lies within the period,
    and leaves it as it was when the time of the call lies outside it: such
    an upload never counts against the plan limit. *)
Theorem successful_upload_counts_within_period (env : Env)
    (member_id : string) (e : EDocument.t) (w w' : World)
    (response : UploadDocumentResponse.t) (s : Subscription.t) (n : nat) :
  upload_document env member_id e w = (w', Return response) ->
  subscriptions w !! member_id = Some s ->
  get_num_uploaded_documents_for_current_subscription_by_member_id
    member_id w = (w, Return n) ->
  get_num_uploaded_documents_for_current_subscription_by_member_id
    member_id w'
  = (w', Return (if (now env >=? Subscription.purchased_date s)
                    && (now env <? Subscription.expire_date s)
                 then S n else n)).
Proof.
  intros Hrun Hs Hn.
  apply upload_document_return in Hrun as (s' & Hs' & -> & _).
  rewrite (get_num_uploaded_eq _ _ _ Hs) in Hn. injection Hn as <-.
  rewrite (get_num_uploaded_eq _ _ s) by exact Hs.
  rewrite (uploads_in_period_snoc w _ member_id s
             (saved_upload env member_id w)) by reflexivity.
  cbn [saved_upload DocumentUpload.member_id DocumentUpload.upload_date].
  rewrite Z.geb_leb.
  destruct (Z.leb_spec (Subscription.purchased_date s) (now env));
    destruct (Z.ltb_spec (now env) (Subscription.expire_date s));
    cbn [andb]; destruct (decide _) as [[_ Hd]|Hd];
    try (exfalso; lia); try (exfalso; apply Hd; split; [reflexivity|lia]);
    f_equal; f_equal; lia.
Qed.

(** X4.  A failed enqueue is counted all the same: when [upload_document]
    raises the error of the queue at a time within the member's period, the
    count of the period is one higher than before the call. *)
Theorem failed_enqueue_is_counted (env : Env) (member_id : string)
    (e : EDocument.t) (w : World) (s : Subscription.t) (n : nat) :
  subscriptions w !! member_id = Some s ->
  get_num_uploaded_documents_for_current_subscription_by_member_id
    member_id w = (w, Return n) ->
  Subscription.purchased_date s <= now env < Subscription.expire_date s ->
  snd (upload_document env member_id e w) = Raise SQSClientError ->
  get_num_uploaded_documents_for_current_subscription_by_member_id
    member_id (fst (upload_document env member_id e w))
  = (fst (upload_document env member_id e w), Return (S n)).
Proof.
  intros Hs Hn Hnow Hraise.
  rewrite (get_num_uploaded_eq _ _ _ Hs) in Hn. injection Hn as <-.
  destruct (upload_document_subscriptions env member_id e w) as [Hsub _].
  rewrite (get_num_uploaded_eq _ _ s) by (rewrite Hsub; exact Hs).
  f_equal. f_equal.
  destruct (upload_document_run env member_id e w)
    as [(err' & Hrun & _ & _ & H3)
       |(s' & content & c & _ & _ & _ & _ & _ & Hrun)];
    rewrite Hrun in *.
  - cbn [snd] in Hraise. injection Hraise as ->. contradiction.
  - unfold writes in *.
    destruct (s3_upload_ok env); [|discriminate].
    destruct (document_save_ok env); [|discriminate].
    destruct (document_upload_save_ok env); [|discriminate].
    destruct (sqs_put_ok env); [discriminate|]. cbn [fst].
    rewrite (uploads_in_period_snoc w _ member_id s
               (saved_upload env member_id w)) by reflexivity.
    cbn [saved_upload DocumentUpload.member_id DocumentUpload.upload_date].
    destruct (decide _) as [_|Hd]; [lia|].
    exfalso. apply Hd. split; [reflexivity|exact Hnow].
Qed.

(** X5.  Whatever [upload_document] does for one member, the count of any
    other member is what it was. *)
Theorem upload_leaves_other_counts (env : Env) (member_id other : string)
    (e : EDocument.t) (w : World) :
  other <> member_id ->
  snd (get_num_uploaded_documents_for_current_subscription_by_member_id
         other (fst (upload_document env member_id e w)))
  = snd (get_num_uploaded_documents_for_current_subscription_by_member_id
           other w).
Proof.
  intros Hne.
  destruct (upload_document_subscriptions env member_id e w) as [Hsub _].
  destruct (subscriptions w !! other) as [s|] eqn:Hs.
  - rewrite (get_num_uploaded_eq _ _ s) by (rewrite Hsub; exact Hs).
    rewrite (get_num_uploaded_eq _ _ s Hs). cbn [snd]. f_equal.
    destruct (upload_document_run env member_id e w)
      as [(err' & Hrun & _)|(s' & content & c & _ & _ & _ & _ & _ & Hrun)];
      rewrite Hrun; [reflexivity|].
    assert (Hskip : forall w' : World,
               document_uploads w'
               = document_uploads w ++ [saved_upload env member_id w] ->
               length (uploads_in_period w' other s)
               = length (uploads_in_period w other s)).
    { intros w' Hd. rewrite (uploads_in_period_snoc w w' other s _ Hd).
      cbn [saved_upload DocumentUpload.member_id].
      destruct (decide _) as [[Hm _]|_]; [congruence|lia]. }
    unfold writes.
    destruct (s3_upload_ok env), (document_save_ok env),
      (document_upload_save_ok env), (sqs_put_ok env); cbn [fst];
      try reflexivity; apply Hskip; reflexivity.
  - rewrite get_num_uploaded_none by (rewrite Hsub; exact Hs).
    rewrite (get_num_uploaded_none _ _ Hs). reflexivity.
Qed.

(** X6.  [upload_document] only appends: in every run the subscriptions and
    the categories are unchanged, the rows of both tables, the messages of
    the queue and the events of the trace that were there are still there,
    in place, and every object of the bucket under a key other than the
    drawn one is untouched. *)
Theorem upload_document_only_appends (env : Env) (member_id : string)
    (e : EDocument.t) (w : World) :
  subscriptions (fst (upload_document env member_id e w)) = subscriptions w
  /\ categories (fst (upload_document env member_id e w)) = categories w
  /\ documents w `prefix_of` documents (fst (upload_document env member_id e w))
  /\ document_uploads w
     `prefix_of` document_uploads (fst (upload_document env member_id e w))
  /\ queue w `prefix_of` queue (fst (upload_document env member_id e w))
  /\ trace w `prefix_of` trace (fst (upload_document env member_id e w))
  /\ forall key : string,
       key <> uuid4_hex env ->
       bucket (fst (upload_document env member_id e w)) !! key
       = bucket w !! key.
Proof.
  destruct (upload_document_subscriptions env member_id e w) as [Hsub Hcat].
  split; [exact Hsub|]. split; [exact Hcat|].
  destruct (upload_document_run env member_id e w)
    as [(err' & Hrun & _)|(s' & content & c & _ & _ & _ & _ & _ & Hrun)];
    rewrite Hrun.
  - cbn [fst]. repeat split; reflexivity.
  - unfold writes.
    destruct (s3_upload_ok env), (document_save_ok env),
      (document_upload_save_ok env), (sqs_put_ok env); cbn;
      repeat split;
      try reflexivity;
      try (apply prefix_app_r; reflexivity);
      try (rewrite <- !app_assoc; apply prefix_app_r; reflexivity);
      try (intros key Hkey; apply lookup_insert_ne; congruence).
Qed.

(** *** Requests one after the other *)

Lemma successes_cons {A} (r : Outcome A) (rs : list (Outcome A)) :
  successes (r :: rs)
  = Nat.add (if is_return r then 1%nat else 0%nat) (successes rs).
Proof. unfold successes. cbn [List.filter]. destruct (is_return r); reflexivity. Qed.

Lemma below_plan_maximum (plan_type : SubscriptionPlanType) (n : nat)
    (limit : Z) :
  plan_maximum plan_type = Some limit ->
  limit_error plan_type n = None ->
  Z.of_nat n < limit.
Proof.
  intros Hmax Hl. apply limit_error_none in Hl.
  destruct Hl as [[-> Hlt]|[-> Hlt]]; injection Hmax as <-; exact Hlt.
Qed.

Lemma upload_document_count_step (env : Env) (member_id : string)
    (e : EDocument.t) (w : World) (s : Subscription.t) (limit : Z) :
  subscriptions w !! member_id = Some s ->
  plan_maximum (Subscription.plan_type s) = Some limit ->
  Subscription.purchased_date s <= now env < Subscription.expire_date s ->
  Z.of_nat (length (uploads_in_period w member_id s))
  + (if is_return (snd (upload_document env member_id e w)) then 1 else 0)
  <= Z.of_nat
       (length (uploads_in_period (fst (upload_document env member_id e w))
                  member_id s))
  <= Z.max limit (Z.of_nat (length (uploads_in_period w member_id s))).
Proof.
  intros Hs Hmax Hnow.
  destruct (upload_document_run env member_id e w)
    as [(err' & Hrun & _)|(s' & content & c & Hs' & Hl & _ & _ & _ & Hrun)];
    rewrite Hrun.
  - cbn [fst snd is_return]. lia.
  - rewrite Hs in Hs'. injection Hs' as <-.
    pose proof (below_plan_maximum _ _ _ Hmax Hl) as Hlt.
    assert (Hone : forall w' : World,
               document_uploads w'
               = document_uploads w ++ [saved_upload env member_id w] ->
               length (uploads_in_period w' member_id s)
               = S (length (uploads_in_period w member_id s))).
    { intros w' Hd. rewrite (uploads_in_period_snoc w w' member_id s _ Hd).
      cbn [saved_upload DocumentUpload.member_id DocumentUpload.upload_date].
      destruct (decide _) as [_|Hd']; [lia|].
      exfalso. apply Hd'. split; [reflexivity|exact Hnow]. }
    assert (Hzero : forall w' : World,
               document_uploads w' = document_uploads w ->
               length (uploads_in_period w' member_id s)
               = length (uploads_in_period w member_id s)).
    { intros w' Hd. rewrite (uploads_in_period_same w w' member_id s Hd).
      reflexivity. }
    pose proof (Hone (after_enqueue env member_id e
                        (Subscription.plan_type s) w) eq_refl) as H4.
    pose proof (Hone (after_upload env member_id e w) eq_refl) as H3.
    pose proof (Hzero (after_document env e w) eq_refl) as H2.
    pose proof (Hzero (after_blob env e w) eq_refl) as H1.
    pose proof (Hzero (set_trace w
                         (trace w ++ [S3Upload (uuid4_hex env) false]))
                  eq_refl) as H0.
    unfold writes.
    destruct (s3_upload_ok env), (document_save_ok env),
      (document_upload_save_ok env), (sqs_put_ok env);
      cbn [fst snd is_return]; lia.
Qed.

(** X7.  Served one after the other at times within the period, the
    requests of a member on a plan with maximum [limit] never take the count
    of the period past the maximum, whatever the documents are and whichever
    writes fail: with [n] the count before, the count after is at most the
    larger of [limit] and [n], and it is at least [n] plus the number of
    requests that returned.  So at most [limit - n] of them return. *)
Theorem sequential_uploads_respect_limit (member_id : string)
    (s : Subscription.t) (limit : Z) (requests : list (Env * EDocument.t))
    (w : World) (n : nat) :
  subscriptions w !! member_id = Some s ->
  plan_maximum (Subscription.plan_type s) = Some limit ->
  Forall
    (fun request : Env * EDocument.t =>
       Subscription.purchased_date s <= now (fst request)
       < Subscription.expire_date s) requests ->
  get_num_uploaded_documents_for_current_subscription_by_member_id
    member_id w = (w, Return n) ->
  exists n' : nat,
    get_num_uploaded_documents_for_current_subscription_by_member_id
      member_id (fst (upload_documents member_id requests w))
    = (fst (upload_documents member_id requests w), Return n')
    /\ Z.of_nat n
       + Z.of_nat (successes (snd (upload_documents member_id requests w)))
       <= Z.of_nat n'
    /\ Z.of_nat n' <= Z.max limit (Z.of_nat n).
Proof.
  intros Hs Hmax Hall Hn.
  rewrite (get_num_uploaded_eq _ _ _ Hs) in Hn. injection Hn as <-.
  revert w Hs.
  induction requests as [|[env e] requests IH]; intros w Hs.
  - exists (length (uploads_in_period w member_id s)).
    split; [apply get_num_uploaded_eq, Hs|].
    cbn [upload_documents snd successes List.filter length]. lia.
  - apply Forall_cons in Hall as [Hnow Hrest]. cbn [fst] in Hnow.
    pose proof (upload_document_count_step env member_id e w s limit
                  Hs Hmax Hnow) as Hstep.
    destruct (upload_document_subscriptions env member_id e w) as [Hsub _].
    cbn [upload_documents].
    destruct (upload_document env member_id e w) as [w1 r] eqn:Hrun.
    cbn [fst snd] in Hstep, Hsub.
    assert (Hs1 : subscriptions w1 !! member_id = Some s)
      by (rewrite Hsub; exact Hs).
    destruct (IH Hrest w1 Hs1) as (n' & Hn' & Hlow & Hhigh).
    destruct (upload_documents member_id requests w1) as [w2 rs] eqn:Hrest'.
    cbn [fst snd] in *.
    exists n'. split; [exact Hn'|].
    rewrite successes_cons. destruct (is_return r); lia.
Qed.

(** X8.  A member whose plan limit check raises stays shut out: however many
    requests follow and whatever they carry, each of them raises the same
    error and the world is left exactly as it was. *)
Theorem blocked_member_stays_blocked (member_id : string)
    (s : Subscription.t) (n : nat) (err : Error)
    (requests : list (Env * EDocument.t)) (w : World) :
  subscriptions w !! member_id = Some s ->
  get_num_uploaded_documents_for_current_subscription_by_member_id
    member_id w = (w, Return n) ->
  ensure_plan_limit (Subscription.plan_type s) n w = (w, Raise err) ->
  upload_documents member_id requests w
  = (w, map (fun _ => Raise err) requests).
Proof.
  intros Hs Hn Hlimit.
  rewrite (get_num_uploaded_eq _ _ _ Hs) in Hn. injection Hn as <-.
  rewrite ensure_plan_limit_eq in Hlimit.
  destruct (limit_error _ _) as [err'|] eqn:Hl; [|discriminate].
  injection Hlimit as ->.
  induction requests as [|[env e] requests IH]; [reflexivity|].
  cbn [upload_documents map].
  rewrite upload_document_eq. unfold checks_and_writes. rewrite Hs, Hl.
  rewrite IH. reflexivity.
Qed.

(** X9.  A subscription whose period is empty or inverted (the expiry date is
    not after the purchase date) counts no upload, whatever records the
    member has. *)
Theorem empty_period_counts_nothing (member_id : string)
    (s : Subscription.t) (w : World) :
  subscriptions w !! member_id = Some s ->
  Subscription.expire_date s <= Subscription.purchased_date s ->
  get_num_uploaded_documents_for_current_subscription_by_member_id
    member_id w = (w, Return 0%nat).
Proof.
  intros Hs Hempty. rewrite (get_num_uploaded_eq _ _ _ Hs).
  f_equal. f_equal. unfold uploads_in_period.
  induction (document_uploads w) as [|du l IH]; [reflexivity|].
  rewrite filter_cons. destruct (decide _) as [[_ Hd]|_]; [lia|exact IH].
Qed.

(** *** Upload, then read *)

Lemma upload_document_return_checks (env : Env) (member_id : string)
    (e : EDocument.t) (w w' : World) (response : UploadDocumentResponse.t) :
  upload_document env member_id e w = (w', Return response) ->
  exists (s : Subscription.t) (c : Category.t),
    List.find
      (CategoryRepository.is_category member_id (EDocument.category_id e))
      (categories w) = Some c
    /\ w' = after_enqueue env member_id e (Subscription.plan_type s) w
    /\ response = UploadDocumentResponse.mk (document_seq w).
Proof.
  intros Hret.
  destruct (upload_document_run env member_id e w)
    as [(err' & Hrun & _)|(s & content & c & _ & _ & _ & _ & Hcat & Hrun)];
    rewrite Hrun in Hret; [discriminate|].
  unfold writes in Hret.
  destruct (s3_upload_ok env); [|discriminate].
  destruct (document_save_ok env); [|discriminate].
  destruct (document_upload_save_ok env); [|discriminate].
  destruct (sqs_put_ok env); [|discriminate].
  injection Hret as <- <-. exists s, c. auto.
Qed.

Lemma first_some_app {A B} (f : A -> option B) (l1 l2 : list A) :
  DocumentRepository.first_some f (l1 ++ l2)
  = match DocumentRepository.first_some f l1 with
    | Some y => Some y
    | None => DocumentRepository.first_some f l2
    end.
Proof.
  induction l1 as [|x l1 IH]; [reflexivity|].
  cbn [app DocumentRepository.first_some].
  destruct (f x); [reflexivity|exact IH].
Qed.

(** X10.  What was uploaded reads back.  After a successful
    [upload_document] in a world where the next key of the documents table
    is not yet the key of a document, [get_document_by_id] of the same
    member with the id returned finds the document: its content is the
    decoding of the very bytes uploaded, stored with the declared format,
    and it carries the name, format and category of the entity, no summary
    and no question. *)
Theorem uploaded_document_reads_back (env : Env) (member_id : string)
    (e : EDocument.t) (w w' : World) (response : UploadDocumentResponse.t)
    (text : string) :
  upload_document env member_id e w = (w', Return response) ->
  (forall d : Document.t, d ∈ documents w -> Document.id d <> document_seq w) ->
  decode_content_str
    (BucketObject.mk (EDocument.content_bytes e)
       {["format" := format_value (EDocument.format e)]}) = Some text ->
  exists (w'' : World) (r : GetDocumentResponse.t),
    get_document_by_id member_id (UploadDocumentResponse.id response) w'
    = (w'', Return r)
    /\ GetDocumentResponse.id r = UploadDocumentResponse.id response
    /\ GetDocumentResponse.content r = text
    /\ GetDocumentResponse.documentName r = EDocument.name e
    /\ GetDocumentResponse.format r = EDocument.format e
    /\ CategoryResponseDto.id (GetDocumentResponse.category r)
       = EDocument.category_id e
    /\ GetDocumentResponse.summary r = None
    /\ GetDocumentResponse.questions r = [].
Proof.
  intros Hret Hfresh Htext.
  apply upload_document_return_checks in Hret as (s & c & Hcat & -> & ->).
  pose proof (find_category_some _ _ _ _ Hcat) as (_ & Hcid & _).
  cbn [UploadDocumentResponse.id].
  unfold get_document_by_id, bind, DocumentRepository.find_by_id.
  cbn [after_enqueue after_document documents categories].
  rewrite first_some_app.
  rewrite (first_some_none _ (documents w)).
  2: { intros d Hd. unfold DocumentRepository.owned.
       rewrite bool_decide_eq_false_2 by (apply Hfresh, Hd). reflexivity. }
  cbn [DocumentRepository.first_some].
  unfold DocumentRepository.owned at 1.
  cbn [saved_document Document.id Document.category_id].
  rewrite bool_decide_eq_true_2 by reflexivity. rewrite Hcat.
  cbn [Document.s3_key saved_document]. unfold S3Client.get_object.
  cbn [bucket after_enqueue after_blob]. rewrite lookup_insert_eq.
  rewrite Htext.
  cbn [decoded]. unfold ret.
  eexists _, _. split; [reflexivity|].
  cbn. repeat split; try reflexivity. exact Hcid.
Qed.

(** X11.  What was uploaded is listed.  After a successful
    [upload_document] the documents of the category the entity names, as
    [get_all_documents_by_category] gives them for the member, are those it
    gave before followed by one more: the id returned, the name of the
    entity, no summary, and the time of the call. *)
Theorem uploaded_document_is_listed (env : Env) (member_id : string)
    (e : EDocument.t) (w w' : World) (response : UploadDocumentResponse.t) :
  upload_document env member_id e w = (w', Return response) ->
  exists old : list DocumentResponseDto.t,
    get_all_documents_by_category member_id (EDocument.category_id e) w
    = (w, Return (GetAllDocumentsByCategoryResponse.mk old))
    /\ get_all_documents_by_category member_id (EDocument.category_id e) w'
       = (w', Return
                (GetAllDocumentsByCategoryResponse.mk
                   (old ++ [DocumentResponseDto.mk
                              (UploadDocumentResponse.id response)
                              (EDocument.name e) None (now env)]))).
Proof.
  intros Hret.
  apply upload_document_return_checks in Hret as (s & c & Hcat & -> & ->).
  unfold get_all_documents_by_category, bind,
    CategoryRepository.find_or_none_by_id,
    DocumentRepository.find_all_by_category_id, ret.
  cbn [after_enqueue after_document documents categories].
  rewrite Hcat. eexists. split; [reflexivity|].
  cbn [after_enqueue after_document documents categories].
  rewrite List.filter_app, map_app. cbn [List.filter].
  cbn [saved_document Document.category_id].
  rewrite (bool_decide_eq_true_2
             (EDocument.category_id e = EDocument.category_id e))
    by reflexivity.
  rewrite (bool_decide_eq_true_2
             (is_Some
                (List.find
                   (CategoryRepository.is_category member_id
                      (EDocument.category_id e)) (categories w))))
    by (exists c; exact Hcat).
  reflexivity.
Qed.

(** X12.  What [get_document_by_id] returns and does.  The response shows
    the id, status, name, summary, format and creation time of a document of
    the table that has the id asked for and a category of the member, with
    the id and name of that category, and its content is the decoding of
    the object the bucket holds under the key of the document.  Nothing is
    written: the world after is the world before with one more event, the
    read of that key. *)
Theorem get_document_by_id_view (member_id : string) (document_id : Z)
    (w w' : World) (r : GetDocumentResponse.t) :
  get_document_by_id member_id document_id w = (w', Return r) ->
  exists (d : Document.t) (c : Category.t) (key : string)
         (o : BucketObject.t),
    d ∈ documents w /\ Document.id d = document_id
    /\ c ∈ categories w
    /\ Category.id c = Document.category_id d
    /\ Category.member_id c = member_id
    /\ Document.s3_key d = Some key
    /\ bucket w !! key = Some o
    /\ decode_content_str o = Some (GetDocumentResponse.content r)
    /\ GetDocumentResponse.id r = Document.id d
    /\ GetDocumentResponse.status r = Document.status d
    /\ GetDocumentResponse.documentName r = Document.name d
    /\ GetDocumentResponse.summary r = Document.summary d
    /\ GetDocumentResponse.format r = Document.format d
    /\ GetDocumentResponse.createdAt r = Document.created_at d
    /\ GetDocumentResponse.category r
       = CategoryResponseDto.mk (Category.id c) (Category.name c)
    /\ w' = set_trace w (trace w ++ [S3GetObject key]).
Proof.
  unfold get_document_by_id, bind, DocumentRepository.find_by_id.
  destruct (DocumentRepository.first_some _ _) as [[d c]|] eqn:Hfound;
    [|discriminate].
  apply first_some_some in Hfound as (d' & Hd' & Howned).
  unfold DocumentRepository.owned in Howned.
  destruct (bool_decide_reflect (Document.id d' = document_id)) as [Hi|Hi];
    [|discriminate].
  destruct (List.find _ _) as [c'|] eqn:Hfind; [|discriminate].
  injection Howned as -> ->.
  apply find_category_some in Hfind as (Hc & Hci & Hcm).
  unfold S3Client.get_object.
  destruct (Document.s3_key d) as [key|] eqn:Hkey; [|discriminate].
  destruct (bucket w !! key) as [o|] eqn:Ho; [|discriminate].
  destruct (decode_content_str o) as [content|] eqn:Hdec; [|discriminate].
  cbn [decoded]. unfold ret. intros H. injection H as <- <-.
  exists d, c, key, o. cbn.
  repeat split; assumption || reflexivity.
Qed.

End DocumentService.

(** ** The scenario, run

    The service with a FREE maximum of 3 and a PRO maximum of 30, on the
    worlds, requests and documents of the scenario. *)

Local Abbreviation scenario_upload :=
  (upload_document 3 30 scenario_decode scenario_plan_value).

Local Abbreviation scenario_key := "3f2b8c1d9e4a4f6b8a7c5d2e1f0a9b8c".

(** The count of [m1] is 2: the record dated 100 counts, the one dated 200
    does not, nor does the record of [m2]. *)
Lemma quota_count_scenario :
  subscriptions scenario_world !! "m1" = Some scenario_subscription
  /\ get_num_uploaded_documents_for_current_subscription_by_member_id
       "m1" scenario_world = (scenario_world, Return 2%nat).
Proof.
  split; [reflexivity|].
  destruct (quota_count_is_half_open_interval scenario_world "m1"
              scenario_subscription eq_refl) as (n & Hn & Heq & _).
  rewrite Hn, Heq. reflexivity.
Defined.

(** With two uploads in the period and a maximum of 3, the third upload
    succeeds and the fourth fails with the FREE limit error. *)
Lemma plan_limit_scenario :
  subscriptions scenario_world !! "m1" = Some scenario_subscription
  /\ get_num_uploaded_documents_for_current_subscription_by_member_id
       "m1" scenario_world = (scenario_world, Return 2%nat)
  /\ exists (w' : World) (rs : list (Outcome UploadDocumentResponse.t)),
       upload_documents 3 30 scenario_decode scenario_plan_value "m1"
         ([(scenario_env, scenario_note)] ++ [(scenario_env, scenario_note)])
         scenario_world
       = (w', rs ++ [Raise FreePlanDocumentUploadLimitExceedError])
       /\ length rs = 1%nat
       /\ Forall (fun r => is_return r = true) rs.
Proof.
  split; [reflexivity|]. split; [reflexivity|].
  destruct (plan_limit_enforced 3 30 scenario_decode scenario_plan_value
              scenario_env "m1" scenario_note scenario_world
              scenario_subscription 2 eq_refl eq_refl)
    as (_ & _ & _ & Hfree & _).
  apply (Hfree [(scenario_env, scenario_note)]).
  - reflexivity.
  - constructor; [|constructor].
    split; [cbn; lia|].
    split; [exists "hi"; split; [reflexivity|reflexivity]|].
    split; [eexists; reflexivity|].
    repeat split.
  - reflexivity.
Defined.

(** The upload of the note succeeds; its message has the keys of the code
    and its [db_pk] is the id returned. *)
Lemma queue_message_scenario :
  scenario_upload scenario_env "m1" scenario_note scenario_world
  = (fst (scenario_upload scenario_env "m1" scenario_note scenario_world),
     Return (UploadDocumentResponse.mk 10))
  /\ exists message : gmap string PyVal,
       queue (fst (scenario_upload scenario_env "m1" scenario_note
                     scenario_world)) = [message]
       /\ message !! "s3_key" = Some (PyStr scenario_key)
       /\ message !! "db_pk" = Some (PyInt 10)
       /\ message !! "subscription_plan" = Some (PyStr "FREE").
Proof.
  assert (Hrun :
    scenario_upload scenario_env "m1" scenario_note scenario_world
    = (fst (scenario_upload scenario_env "m1" scenario_note scenario_world),
       Return (UploadDocumentResponse.mk 10))) by reflexivity.
  split; [exact Hrun|].
  destruct (queue_message_payload 3 30 scenario_decode scenario_plan_value
              _ _ _ _ _ _ Hrun)
    as (s & message & Hs & Hq & _ & Hk & Hid & Hplan & _).
  exists message. split; [exact Hq|]. split; [exact Hk|].
  split; [exact Hid|].
  injection Hs as <-. exact Hplan.
Defined.

(** C4 as the spec words it fails on the same upload: the message put on the
    queue has no storageKey; its keys are those of the code. *)
Lemma queue_message_spec_names_counterexample :
  exists message : gmap string PyVal,
    snd (scenario_upload scenario_env "m1" scenario_note scenario_world)
    = Return (UploadDocumentResponse.mk 10)
    /\ queue (fst (scenario_upload scenario_env "m1" scenario_note
                     scenario_world)) = [message]
    /\ message !! "storageKey" = None
    /\ message !! "documentId" = None
    /\ message !! "subscriptionPlan" = None
    /\ ~ payload_as_spec_names_it message.
Proof.
  exists (sqs_message scenario_plan_value scenario_key 10 FREE).
  split; [reflexivity|]. split; [reflexivity|].
  split; [reflexivity|]. split; [reflexivity|]. split; [reflexivity|].
  intros (k & document_id & plan & Hk & _). discriminate Hk.
Defined.

(** The same key in the bucket, on the document row and in the message. *)
Lemma one_storage_key_scenario :
  scenario_upload scenario_env "m1" scenario_note scenario_world
  = (fst (scenario_upload scenario_env "m1" scenario_note scenario_world),
     Return (UploadDocumentResponse.mk 10))
  /\ exists (d : Document.t) (message : gmap string PyVal),
       is_Some (bucket (fst (scenario_upload scenario_env "m1" scenario_note
                               scenario_world)) !! scenario_key)
       /\ last (documents (fst (scenario_upload scenario_env "m1"
                                  scenario_note scenario_world))) = Some d
       /\ Document.s3_key d = Some scenario_key
       /\ last (queue (fst (scenario_upload scenario_env "m1" scenario_note
                              scenario_world))) = Some message
       /\ message !! "s3_key" = Some (PyStr scenario_key).
Proof.
  assert (Hrun :
    scenario_upload scenario_env "m1" scenario_note scenario_world
    = (fst (scenario_upload scenario_env "m1" scenario_note scenario_world),
       Return (UploadDocumentResponse.mk 10))) by reflexivity.
  split; [exact Hrun|].
  destruct (one_storage_key 3 30 scenario_decode scenario_plan_value
              _ _ _ _ _ _ Hrun)
    as (d & message & upload_id & Hb & Hd & _ & Hk & Hq & Hm & _).
  exists d, message.
  split; [eexists; exact Hb|].
  split; [rewrite Hd; apply last_snoc|]. split; [exact Hk|].
  split; [rewrite Hq; apply last_snoc|]. exact Hm.
Defined.

(** The plan of [m1] is FREE, and the upload of the note does not raise the
    invalid plan type error. *)
Lemma invalid_plan_type_scenario :
  (forall s : Subscription.t,
     subscriptions scenario_world !! "m1" = Some s ->
     Subscription.plan_type s = FREE \/ Subscription.plan_type s = PRO)
  /\ snd (scenario_upload scenario_env "m1" scenario_note scenario_world)
     <> Raise (ValueError "Invalid Plan Type").
Proof.
  assert (Hplan :
    forall s : Subscription.t,
      subscriptions scenario_world !! "m1" = Some s ->
      Subscription.plan_type s = FREE \/ Subscription.plan_type s = PRO).
  { intros s Hs.
    change (Some scenario_subscription = Some s) in Hs.
    injection Hs as <-. left. reflexivity. }
  split; [exact Hplan|].
  exact (invalid_plan_type_unreachable 3 30 scenario_decode
           scenario_plan_value scenario_env "m1" scenario_note scenario_world
           "Invalid Plan Type" Hplan).
Defined.

(** A document of 15,000 characters uploaded by [m1], who is under the
    limit, raises the maximum-length error; one of 14,999 does not. *)
Lemma document_length_scenario :
  scenario_decode scenario_long
  = Some (String.string_of_list_byte (EDocument.content_bytes scenario_long))
  /\ scenario_upload scenario_env "m1" scenario_long scenario_world
     = (scenario_world, Raise DocumentMaxLengthExceedError)
  /\ scenario_decode scenario_almost
     = Some (String.string_of_list_byte
               (EDocument.content_bytes scenario_almost))
  /\ snd (scenario_upload scenario_env "m1" scenario_almost scenario_world)
     <> Raise DocumentMaxLengthExceedError.
Proof.
  split; [reflexivity|]. split.
  - destruct (document_length_check 3 30 scenario_decode scenario_plan_value
                scenario_env "m1" scenario_long scenario_world _ eq_refl)
      as [Hlong _].
    destruct Hlong as [_ Hraise].
    + apply Z.leb_le. vm_compute. reflexivity.
    + apply (Hraise scenario_subscription 2%nat); reflexivity.
  - split; [reflexivity|].
    destruct (document_length_check 3 30 scenario_decode scenario_plan_value
                scenario_env "m1" scenario_almost scenario_world _ eq_refl)
      as [_ Hshort].
    apply Hshort. apply Z.ltb_lt. vm_compute. reflexivity.
Defined.

(** C5 as stated fails where an earlier check fails first: [m1] with three
    uploads in the period and a maximum of 3 uploads a document of 15,000
    characters, and the error is the FREE limit error. *)
Lemma long_document_over_limit_counterexample :
  scenario_decode scenario_long
  = Some (String.string_of_list_byte (EDocument.content_bytes scenario_long))
  /\ (15000 <=? Z.of_nat
                  (String.length
                     (String.string_of_list_byte
                        (EDocument.content_bytes scenario_long)))) = true
  /\ scenario_upload scenario_env "m1" scenario_long scenario_full_world
     = (scenario_full_world, Raise FreePlanDocumentUploadLimitExceedError)
  /\ snd (scenario_upload scenario_env "m1" scenario_long scenario_full_world)
     <> Raise DocumentMaxLengthExceedError.
Proof.
  split; [reflexivity|]. split; [vm_compute; reflexivity|].
  split; [vm_compute; reflexivity|].
  vm_compute. discriminate.
Defined.

(** Category 42 does not exist for [m1]: the upload fails with the
    category-not-found error and the world, its trace included, is as it
    was. *)
Lemma stray_category_scenario :
  fst (scenario_upload scenario_env "m1" scenario_stray scenario_world)
  = scenario_world
  /\ snd (scenario_upload scenario_env "m1" scenario_stray scenario_world)
     = Raise (CategoryNotFoundError 42).
Proof.
  destruct (fail_fast_no_side_effects 3 30 scenario_decode scenario_plan_value
              scenario_env "m1" scenario_stray scenario_world) as [_ Hstray].
  destruct Hstray as (Hw & _ & Herr).
  - intros c Hc [Hid _].
    apply elem_of_cons in Hc as [->|Hc]; [discriminate Hid|].
    apply elem_of_cons in Hc as [->|Hc]; [discriminate Hid|].
    apply elem_of_nil in Hc. exact Hc.
  - split; [exact Hw|].
    apply (Herr scenario_subscription 2%nat "hi"); reflexivity.
Defined.

(** Document 1 of [m1] comes back with the questions delivered at least
    once, in their order; document 3, in another member's category, is not
    found. *)
Lemma delivered_questions_scenario :
  get_document_by_id scenario_decode_object "m1" 3 scenario_world
  = (scenario_world, Raise (DocumentNotFoundError 3))
  /\ exists (w' : World) (response : GetDocumentResponse.t)
            (qs : list Question.t),
       get_document_by_id scenario_decode_object "m1" 1 scenario_world
       = (w', Return response)
       /\ GetDocumentResponse.questions response
          = [QuestionResponseDto.mk 1 "q1" "a1";
             QuestionResponseDto.mk 3 "q3" "a3"]
       /\ GetDocumentResponse.questions response
          = map (fun q =>
                   QuestionResponseDto.mk (Question.id q)
                     (Question.question q) (Question.answer q)) qs
       /\ forall q : Question.t, q ∈ qs -> Question.delivered_count q <> 0.
Proof.
  destruct (get_document_by_id_delivered_questions scenario_decode_object
              "m1" 3 scenario_world) as [Hnone _].
  split.
  - apply Hnone. intros d c Hd Hc Hid Hcat Hm.
    apply elem_of_cons in Hd as [->|Hd]; [discriminate Hid|].
    apply elem_of_cons in Hd as [->|Hd]; [discriminate Hid|].
    apply elem_of_cons in Hd as [->|Hd]; [|apply elem_of_nil in Hd; exact Hd].
    apply elem_of_cons in Hc as [->|Hc]; [discriminate Hcat|].
    apply elem_of_cons in Hc as [->|Hc]; [|apply elem_of_nil in Hc; exact Hc].
    discriminate Hm.
  - destruct (get_document_by_id_delivered_questions scenario_decode_object
                "m1" 1 scenario_world) as [_ Hsome].
    assert (Hrun :
      get_document_by_id scenario_decode_object "m1" 1 scenario_world
      = (fst (get_document_by_id scenario_decode_object "m1" 1 scenario_world),
         Return
           (GetDocumentResponse.mk 1 "COMPLETED"
              (CategoryResponseDto.mk 7 "notes") "first" (Some "done")
              (Format "TXT") 100
              [QuestionResponseDto.mk 1 "q1" "a1";
               QuestionResponseDto.mk 3 "q3" "a3"] "hi"))) by reflexivity.
    destruct (Hsome _ _ Hrun)
      as (d & c & qs & _ & _ & _ & _ & _ & Hqs & _ & Hdel & _).
    eexists _, _, qs. split; [exact Hrun|].
    split; [reflexivity|]. split; [exact Hqs|exact Hdel].
Defined.

(** Category 7 of [m1] lists its two documents by id, name, summary and
    creation time; category 8 is not a category of [m1]. *)
Lemma documents_by_category_scenario :
  get_all_documents_by_category "m1" 8 scenario_world
  = (scenario_world, Raise (CategoryNotFoundError 8))
  /\ get_all_documents_by_category "m1" 7 scenario_world
     = (scenario_world,
        Return
          (GetAllDocumentsByCategoryResponse.mk
             [DocumentResponseDto.mk 1 "first" (Some "done") 100;
              DocumentResponseDto.mk 2 "second" None 150])).
Proof.
  split.
  - destruct (get_all_documents_by_category_projection "m1" 8 scenario_world)
      as [Hnone _].
    apply Hnone. intros c Hc [Hid Hm].
    apply elem_of_cons in Hc as [->|Hc]; [discriminate Hid|].
    apply elem_of_cons in Hc as [->|Hc]; [discriminate Hm|].
    apply elem_of_nil in Hc. exact Hc.
  - destruct (get_all_documents_by_category_projection "m1" 7 scenario_world)
      as [_ Hsome].
    rewrite Hsome; [reflexivity|].
    exists (Category.mk 7 "m1" "notes").
    split; [apply list_elem_of_here|split; reflexivity].
Defined.

(** ** The scenario, run further *)

(** With the queue down the upload of the note raises the error of the
    queue; the bytes are in the bucket and the queue is as it was. *)
Lemma queue_down_scenario :
  snd (scenario_upload scenario_env_queue_down "m1" scenario_note
         scenario_world) = Raise SQSClientError
  /\ bucket (fst (scenario_upload scenario_env_queue_down "m1" scenario_note
                    scenario_world)) !! scenario_key
     = Some (stored_object scenario_note)
  /\ queue (fst (scenario_upload scenario_env_queue_down "m1" scenario_note
                   scenario_world)) = queue scenario_world.
Proof.
  assert (Hraise :
    snd (scenario_upload scenario_env_queue_down "m1" scenario_note
           scenario_world) = Raise SQSClientError) by reflexivity.
  split; [exact Hraise|].
  destruct (failed_write_keeps_earlier_writes 3 30 scenario_decode
              scenario_plan_value _ _ _ _ _ Hraise (or_intror eq_refl))
    as (Hb & Hq & _).
  split; [rewrite Hb; apply lookup_insert_eq|exact Hq].
Defined.

(** The upload of the note at time 160, within the period, takes the count
    of [m1] from 2 to 3. *)
Lemma upload_counts_scenario :
  scenario_upload scenario_env "m1" scenario_note scenario_world
  = (fst (scenario_upload scenario_env "m1" scenario_note scenario_world),
     Return (UploadDocumentResponse.mk 10))
  /\ subscriptions scenario_world !! "m1" = Some scenario_subscription
  /\ get_num_uploaded_documents_for_current_subscription_by_member_id
       "m1" scenario_world = (scenario_world, Return 2%nat)
  /\ get_num_uploaded_documents_for_current_subscription_by_member_id
       "m1" (fst (scenario_upload scenario_env "m1" scenario_note
                    scenario_world))
     = (fst (scenario_upload scenario_env "m1" scenario_note scenario_world),
        Return 3%nat).
Proof.
  assert (Hrun :
    scenario_upload scenario_env "m1" scenario_note scenario_world
    = (fst (scenario_upload scenario_env "m1" scenario_note scenario_world),
       Return (UploadDocumentResponse.mk 10))) by reflexivity.
  split; [exact Hrun|]. split; [reflexivity|]. split; [reflexivity|].
  exact (successful_upload_counts_within_period 3 30 scenario_decode
           scenario_plan_value _ _ _ _ _ _ scenario_subscription 2
           Hrun eq_refl eq_refl).
Defined.

(** With the queue down the upload fails and the count of [m1] is 3 all the
    same. *)
Lemma queue_down_counts_scenario :
  subscriptions scenario_world !! "m1" = Some scenario_subscription
  /\ get_num_uploaded_documents_for_current_subscription_by_member_id
       "m1" scenario_world = (scenario_world, Return 2%nat)
  /\ Subscription.purchased_date scenario_subscription
     <= now scenario_env_queue_down
     < Subscription.expire_date scenario_subscription
  /\ snd (scenario_upload scenario_env_queue_down "m1" scenario_note
            scenario_world) = Raise SQSClientError
  /\ get_num_uploaded_documents_for_current_subscription_by_member_id
       "m1" (fst (scenario_upload scenario_env_queue_down "m1" scenario_note
                    scenario_world))
     = (fst (scenario_upload scenario_env_queue_down "m1" scenario_note
               scenario_world), Return 3%nat).
Proof.
  assert (Hnow :
    Subscription.purchased_date scenario_subscription
    <= now scenario_env_queue_down
    < Subscription.expire_date scenario_subscription) by (cbn; lia).
  split; [reflexivity|]. split; [reflexivity|]. split; [exact Hnow|].
  split; [reflexivity|].
  exact (failed_enqueue_is_counted 3 30 scenario_decode scenario_plan_value
           scenario_env_queue_down "m1" scenario_note scenario_world
           scenario_subscription 2 eq_refl eq_refl Hnow eq_refl).
Defined.

(** The upload of [m1] succeeds and the count of [m2] is 1 before and
    after. *)
Lemma other_member_scenario :
  "m2" <> "m1"
  /\ is_return
       (snd (scenario_upload scenario_env "m1" scenario_note
               scenario_shared_world)) = true
  /\ snd (get_num_uploaded_documents_for_current_subscription_by_member_id
            "m2" scenario_shared_world) = Return 1%nat
  /\ snd (get_num_uploaded_documents_for_current_subscription_by_member_id
            "m2" (fst (scenario_upload scenario_env "m1" scenario_note
                         scenario_shared_world))) = Return 1%nat.
Proof.
  assert (Hne : "m2" <> "m1") by discriminate.
  split; [exact Hne|]. split; [reflexivity|]. split; [reflexivity|].
  rewrite (upload_leaves_other_counts 3 30 scenario_decode
             scenario_plan_value scenario_env "m1" "m2" scenario_note
             scenario_shared_world Hne).
  reflexivity.
Defined.

(** Four requests of [m1] at time 160, the second too long and the third
    with the queue down: the count ends at most at the maximum 3 and at
    least at 2 plus the number of requests that returned. *)
Lemma sequential_uploads_scenario :
  subscriptions scenario_world !! "m1" = Some scenario_subscription
  /\ plan_maximum 3 30 (Subscription.plan_type scenario_subscription)
     = Some 3
  /\ get_num_uploaded_documents_for_current_subscription_by_member_id
       "m1" scenario_world = (scenario_world, Return 2%nat)
  /\ exists n' : nat,
       snd (get_num_uploaded_documents_for_current_subscription_by_member_id
              "m1"
              (fst (upload_documents 3 30 scenario_decode scenario_plan_value
                      "m1"
                      [(scenario_env, scenario_note);
                       (scenario_env, scenario_long);
                       (scenario_env_queue_down, scenario_note);
                       (scenario_env, scenario_note)] scenario_world)))
       = Return n'
       /\ Z.of_nat n' <= 3.
Proof.
  split; [reflexivity|]. split; [reflexivity|]. split; [reflexivity|].
  destruct (sequential_uploads_respect_limit 3 30 scenario_decode
              scenario_plan_value "m1" scenario_subscription 3
              [(scenario_env, scenario_note);
               (scenario_env, scenario_long);
               (scenario_env_queue_down, scenario_note);
               (scenario_env, scenario_note)] scenario_world 2
              eq_refl eq_refl)
    as (n' & Hn' & _ & Hhigh).
  - repeat constructor; cbn; lia.
  - reflexivity.
  - exists n'. split; [rewrite Hn'; reflexivity|]. lia.
Defined.

(** [m1] with three uploads in the period and a maximum of 3: three more
    requests, of whatever kind, all raise the FREE limit error and change
    nothing. *)
Lemma blocked_member_scenario :
  subscriptions scenario_full_world !! "m1" = Some scenario_subscription
  /\ get_num_uploaded_documents_for_current_subscription_by_member_id
       "m1" scenario_full_world = (scenario_full_world, Return 3%nat)
  /\ ensure_plan_limit 3 30 (Subscription.plan_type scenario_subscription)
       3 scenario_full_world
     = (scenario_full_world, Raise FreePlanDocumentUploadLimitExceedError)
  /\ upload_documents 3 30 scenario_decode scenario_plan_value "m1"
       [(scenario_env, scenario_note); (scenario_env, scenario_long);
        (scenario_env_queue_down, scenario_stray)] scenario_full_world
     = (scenario_full_world,
        [Raise FreePlanDocumentUploadLimitExceedError;
         Raise FreePlanDocumentUploadLimitExceedError;
         Raise FreePlanDocumentUploadLimitExceedError]).
Proof.
  split; [reflexivity|]. split; [reflexivity|]. split; [reflexivity|].
  exact (blocked_member_stays_blocked 3 30 scenario_decode
           scenario_plan_value "m1" scenario_subscription 3
           FreePlanDocumentUploadLimitExceedError
           [(scenario_env, scenario_note); (scenario_env, scenario_long);
            (scenario_env_queue_down, scenario_stray)] scenario_full_world
           eq_refl eq_refl eq_refl).
Defined.

(** With the period [200, 200) the count of [m1] is 0, records and all. *)
Lemma empty_period_scenario :
  subscriptions scenario_empty_period_world !! "m1"
  = Some scenario_empty_period
  /\ Subscription.expire_date scenario_empty_period
     <= Subscription.purchased_date scenario_empty_period
  /\ get_num_uploaded_documents_for_current_subscription_by_member_id
       "m1" scenario_empty_period_world
     = (scenario_empty_period_world, Return 0%nat).
Proof.
  assert (Hempty :
    Subscription.expire_date scenario_empty_period
    <= Subscription.purchased_date scenario_empty_period) by (cbn; lia).
  split; [reflexivity|]. split; [exact Hempty|].
  exact (empty_period_counts_nothing "m1" scenario_empty_period
           scenario_empty_period_world eq_refl Hempty).
Defined.

(** The note uploaded by [m1] comes back under the id returned, with the
    text of its bytes. *)
Lemma reads_back_scenario :
  scenario_upload scenario_env "m1" scenario_note scenario_world
  = (fst (scenario_upload scenario_env "m1" scenario_note scenario_world),
     Return (UploadDocumentResponse.mk 10))
  /\ exists (w'' : World) (r : GetDocumentResponse.t),
       get_document_by_id scenario_decode_object "m1" 10
         (fst (scenario_upload scenario_env "m1" scenario_note
                 scenario_world)) = (w'', Return r)
       /\ GetDocumentResponse.content r = "hi"
       /\ GetDocumentResponse.documentName r = "note".
Proof.
  assert (Hrun :
    scenario_upload scenario_env "m1" scenario_note scenario_world
    = (fst (scenario_upload scenario_env "m1" scenario_note scenario_world),
       Return (UploadDocumentResponse.mk 10))) by reflexivity.
  split; [exact Hrun|].
  destruct (uploaded_document_reads_back 3 30 scenario_decode
              scenario_decode_object scenario_plan_value _ _ _ _ _ _ "hi"
              Hrun)
    as (w'' & r & Hget & _ & Hcontent & Hname & _).
  - intros d Hd.
    apply elem_of_cons in Hd as [->|Hd]; [discriminate|].
    apply elem_of_cons in Hd as [->|Hd]; [discriminate|].
    apply elem_of_cons in Hd as [->|Hd]; [discriminate|].
    apply elem_of_nil in Hd. destruct Hd.
  - reflexivity.
  - exists w'', r. split; [exact Hget|]. split; [exact Hcontent|exact Hname].
Defined.

(** After the upload category 7 of [m1] lists three documents, the last one
    the note. *)
Lemma is_listed_scenario :
  scenario_upload scenario_env "m1" scenario_note scenario_world
  = (fst (scenario_upload scenario_env "m1" scenario_note scenario_world),
     Return (UploadDocumentResponse.mk 10))
  /\ snd (get_all_documents_by_category "m1" 7
            (fst (scenario_upload scenario_env "m1" scenario_note
                    scenario_world)))
     = Return
         (GetAllDocumentsByCategoryResponse.mk
            [DocumentResponseDto.mk 1 "first" (Some "done") 100;
             DocumentResponseDto.mk 2 "second" None 150;
             DocumentResponseDto.mk 10 "note" None 160]).
Proof.
  assert (Hrun :
    scenario_upload scenario_env "m1" scenario_note scenario_world
    = (fst (scenario_upload scenario_env "m1" scenario_note scenario_world),
       Return (UploadDocumentResponse.mk 10))) by reflexivity.
  split; [exact Hrun|].
  destruct (uploaded_document_is_listed 3 30 scenario_decode
              scenario_plan_value _ _ _ _ _ _ Hrun)
    as (old & Hold & Hnew).
  change (EDocument.category_id scenario_note) with 7 in Hold, Hnew.
  rewrite Hnew. cbn [snd]. f_equal. f_equal. f_equal.
  assert (Hsame :
    (scenario_world,
     Return (A := GetAllDocumentsByCategoryResponse.t)
       (GetAllDocumentsByCategoryResponse.mk old))
    = (scenario_world,
       Return
         (GetAllDocumentsByCategoryResponse.mk
            [DocumentResponseDto.mk 1 "first" (Some "done") 100;
             DocumentResponseDto.mk 2 "second" None 150])))
    by (rewrite <- Hold; reflexivity).
  injection Hsame as ->. reflexivity.
Defined.

(** Document 1 read by [m1]: the view is that of a row with id 1, and the
    world has one more event, the read of the key of that row. *)
Lemma view_scenario :
  exists (r : GetDocumentResponse.t) (d : Document.t) (key : string),
    snd (get_document_by_id scenario_decode_object "m1" 1 scenario_world)
    = Return r
    /\ GetDocumentResponse.content r = "hi"
    /\ d ∈ documents scenario_world
    /\ Document.id d = 1
    /\ Document.s3_key d = Some key
    /\ GetDocumentResponse.documentName r = Document.name d
    /\ fst (get_document_by_id scenario_decode_object "m1" 1 scenario_world)
       = set_trace scenario_world (trace scenario_world ++ [S3GetObject key]).
Proof.
  assert (Hrun :
    get_document_by_id scenario_decode_object "m1" 1 scenario_world
    = (fst (get_document_by_id scenario_decode_object "m1" 1 scenario_world),
       Return
         (GetDocumentResponse.mk 1 "COMPLETED"
            (CategoryResponseDto.mk 7 "notes") "first" (Some "done")
            (Format "TXT") 100
            [QuestionResponseDto.mk 1 "q1" "a1";
             QuestionResponseDto.mk 3 "q3" "a3"] "hi"))) by reflexivity.
  destruct (get_document_by_id_view scenario_decode_object _ _ _ _ _ Hrun)
    as (d & c & key & o & Hd & Hid & _ & _ & _ & Hkey & _ & _ & _ & _ & Hname
        & _ & _ & _ & _ & Hw).
  eexists _, d, key. split; [rewrite Hrun; reflexivity|].
  split; [reflexivity|]. split; [exact Hd|]. split; [exact Hid|].
  split; [exact Hkey|]. split; [exact Hname|exact Hw].
Defined.

(** ** The question repositories: properties *)

Lemma Forall2_impl_elem {A B} (P Q : A -> B -> Prop) (l : list A)
    (k : list B) :
  Forall2 P l k ->
  (forall x y, x ∈ l -> P x y -> Q x y) ->
  Forall2 Q l k.
Proof.
  induction 1 as [|x y l k Hxy _ IH]; intros Himpl; constructor.
  - apply Himpl; [apply list_elem_of_here|exact Hxy].
  - apply IH. intros x' y' Hin. apply Himpl, list_elem_of_further, Hin.
Qed.

Lemma keys_from_length (k : Z) (n : nat) : length (Orm.keys_from k n) = n.
Proof.
  revert k. induction n as [|n IH]; intros k; [reflexivity|].
  cbn [Orm.keys_from length]. rewrite IH. reflexivity.
Qed.

Lemma insert_transient {A} (s : Orm.session A) (r : nat) (c : A) :
  Orm.objects s !! r = Some (Orm.mkObject None c) ->
  Orm.insert s r
  = Orm.mkSession
      (<[r := Orm.mkObject (Some (Orm.sequence s)) c]> (Orm.objects s))
      (Orm.pending s) (Orm.table s ++ [(Orm.sequence s, c)])
      (Orm.sequence s + 1).
Proof. intros Hr. unfold Orm.insert. rewrite Hr. reflexivity. Qed.

Lemma fold_insert_frame {A} (rs : list nat) (s : Orm.session A) (r : nat) :
  r ∉ rs ->
  Orm.objects (fold_left Orm.insert rs s) !! r = Orm.objects s !! r.
Proof.
  revert s. induction rs as [|r' rs IH]; intros s Hr; [reflexivity|].
  apply not_elem_of_cons in Hr as [Hne Hr].
  cbn [fold_left]. rewrite IH by exact Hr.
  unfold Orm.insert. destruct (Orm.objects s !! r') as [o|]; [|reflexivity].
  destruct (Orm.key o); [reflexivity|].
  cbn [Orm.objects]. apply list_lookup_insert_ne. congruence.
Qed.

Lemma fold_insert_transient {A} (rs : list nat) (cols : list A)
    (s : Orm.session A) :
  NoDup rs ->
  Forall2 (fun r c => Orm.objects s !! r = Some (Orm.mkObject None c))
    rs cols ->
  Orm.table (fold_left Orm.insert rs s)
  = Orm.table s ++ zip (Orm.keys_from (Orm.sequence s) (length rs)) cols
  /\ Orm.sequence (fold_left Orm.insert rs s)
     = Orm.sequence s + Z.of_nat (length rs)
  /\ map (Orm.key_of (fold_left Orm.insert rs s)) rs
     = map Some (Orm.keys_from (Orm.sequence s) (length rs)).
Proof.
  revert cols s. induction rs as [|r rs IH]; intros cols s Hnd Hall.
  - apply Forall2_nil_inv_l in Hall as ->. cbn.
    rewrite app_nil_r. repeat split; lia.
  - apply Forall2_cons_inv_l in Hall as (c & cols' & Hr & Hall & ->).
    apply NoDup_cons in Hnd as [Hnotin Hnd].
    cbn [fold_left]. rewrite (insert_transient s r c Hr).
    set (s1 := Orm.mkSession _ _ _ _).
    assert (Hall1 :
      Forall2 (fun r' c' => Orm.objects s1 !! r' = Some (Orm.mkObject None c'))
        rs cols').
    { apply (Forall2_impl_elem _ _ _ _ Hall). intros r' c' Hin Hr'.
      subst s1. cbn [Orm.objects].
      rewrite list_lookup_insert_ne by (intros ->; contradiction).
      exact Hr'. }
    destruct (IH cols' s1 Hnd Hall1) as (Ht & Hs & Hk).
    split; [|split].
    + rewrite Ht. subst s1. cbn [Orm.table Orm.sequence length Orm.keys_from zip zip_with].
      rewrite <- app_assoc. reflexivity.
    + rewrite Hs. subst s1. cbn [Orm.sequence length]. lia.
    + cbn [map length Orm.keys_from]. f_equal; [|exact Hk].
      unfold Orm.key_of. rewrite fold_insert_frame by exact Hnotin.
      subst s1. cbn [Orm.objects].
      rewrite list_lookup_insert_eq; [reflexivity|].
      apply lookup_lt_Some in Hr. exact Hr.
Qed.

Lemma fold_add_transient {A} (rs : list nat) (cols : list A)
    (s : Orm.session A) :
  NoDup rs ->
  (forall r, r ∈ rs -> r ∉ Orm.pending s) ->
  Forall2 (fun r c => Orm.objects s !! r = Some (Orm.mkObject None c))
    rs cols ->
  fold_left (fun s' r => Orm.add r s') rs s
  = Orm.mkSession (Orm.objects s) (Orm.pending s ++ rs) (Orm.table s)
      (Orm.sequence s).
Proof.
  revert cols s. induction rs as [|r rs IH]; intros cols s Hnd Hfresh Hall.
  - destruct s. cbn. rewrite app_nil_r. reflexivity.
  - apply Forall2_cons_inv_l in Hall as (c & cols' & Hr & Hall & ->).
    apply NoDup_cons in Hnd as [Hnotin Hnd].
    cbn [fold_left]. unfold Orm.add at 2. rewrite Hr. cbn [Orm.key].
    rewrite bool_decide_eq_false_2
      by (apply Hfresh, list_elem_of_here).
    rewrite (IH cols'); [| exact Hnd | | exact Hall].
    + cbn [Orm.objects Orm.pending Orm.table Orm.sequence].
      rewrite <- app_assoc. reflexivity.
    + intros r' Hin. cbn [Orm.pending]. apply not_elem_of_app. split.
      * apply Hfresh, list_elem_of_further, Hin.
      * intros Hin'. apply list_elem_of_singleton in Hin'. subst r'.
        contradiction.
Qed.

Lemma to_questions_eq (equestions : list EQuestion.t)
    (s : Orm.session QuestionColumns.t) :
  QuestionRepository.to_questions equestions s
  = (Orm.mkSession
       (Orm.objects s
        ++ map (fun e => Orm.mkObject None (QuestionRepository._to_question e))
             equestions)
       (Orm.pending s) (Orm.table s) (Orm.sequence s),
     seq (length (Orm.objects s)) (length equestions)).
Proof.
  revert s. induction equestions as [|e es IH]; intros s.
  - destruct s. cbn. rewrite app_nil_r. reflexivity.
  - cbn [QuestionRepository.to_questions]. unfold Orm.new. rewrite IH.
    cbn [Orm.objects Orm.pending Orm.table Orm.sequence map length seq].
    rewrite <- app_assoc, length_app. cbn [app length].
    rewrite Nat.add_1_r. reflexivity.
Qed.

Lemma fresh_objects_transient {A} (pre : list (Orm.object A))
    (cols : list A) :
  Forall2
    (fun r c =>
       (pre ++ map (Orm.mkObject None) cols) !! r = Some (Orm.mkObject None c))
    (seq (length pre) (length cols)) cols.
Proof.
  revert pre. induction cols as [|c cols IH]; intros pre; [constructor|].
  cbn [length seq map]. constructor.
  - apply list_lookup_middle. reflexivity.
  - specialize (IH (pre ++ [Orm.mkObject None c])).
    rewrite length_app, Nat.add_1_r, <- app_assoc in IH. exact IH.
Qed.

(** X13.  [QuestionRepository.sync_save_all] in a session with nothing
    pending, when the commit goes through: it returns one key for each
    entity, in the order of the entities, these keys are the next keys of
    the table, one after the other, and the table has gained exactly the
    rows that pair each key with the question, answer and document id of
    its entity.  Two equal entities are two rows with two keys; no entity
    gives no row and an empty list. *)
Theorem question_sync_save_all_keys (equestions : list EQuestion.t)
    (s : Orm.session QuestionColumns.t) :
  Orm.pending s = [] ->
  exists s' : Orm.session QuestionColumns.t,
    QuestionRepository.sync_save_all true equestions s
    = (s', Return (map Some
                     (Orm.keys_from (Orm.sequence s) (length equestions))))
    /\ Orm.table s'
       = Orm.table s
         ++ zip (Orm.keys_from (Orm.sequence s) (length equestions))
              (map (fun e =>
                      QuestionColumns.mk (EQuestion.question e)
                        (EQuestion.answer e) (EQuestion.document_id e))
                 equestions)
    /\ Orm.sequence s' = Orm.sequence s + Z.of_nat (length equestions)
    /\ Orm.pending s' = [].
Proof.
  intros Hclean.
  unfold QuestionRepository.sync_save_all. rewrite to_questions_eq.
  set (cols := map QuestionRepository._to_question equestions).
  set (refs := seq (length (Orm.objects s)) (length equestions)).
  set (s1 := Orm.mkSession _ _ _ _).
  assert (Hall :
    Forall2 (fun r c => Orm.objects s1 !! r = Some (Orm.mkObject None c))
      refs cols).
  { subst s1 refs cols. cbn [Orm.objects].
    rewrite <- (length_map QuestionRepository._to_question equestions).
    rewrite <- (map_map QuestionRepository._to_question (Orm.mkObject None)).
    apply fresh_objects_transient. }
  assert (Hnd : NoDup refs) by apply NoDup_seq.
  rewrite (fold_add_transient refs cols s1 Hnd); [|
    subst s1; cbn [Orm.pending]; rewrite Hclean; intros r _;
    apply not_elem_of_nil | exact Hall].
  unfold Orm.commit, Orm.flush.
  cbn [Orm.objects Orm.pending Orm.table Orm.sequence].
  replace (Orm.pending s1) with (@nil nat) by (subst s1; symmetry; exact Hclean).
  cbn [app].
  set (s2 := Orm.mkSession (Orm.objects s1) refs (Orm.table s1) (Orm.sequence s1)).
  destruct (fold_insert_transient refs cols s2 Hnd Hall) as (Ht & Hs & Hk).
  assert (Hlen : length refs = length equestions)
    by (subst refs; apply length_seq).
  eexists. split; [|split; [|split]].
  - f_equal. f_equal.
    rewrite <- Hlen.
    change (Orm.sequence s) with (Orm.sequence s2).
    rewrite <- Hk. apply map_ext. intros r. reflexivity.
  - cbn [Orm.table]. rewrite Ht, Hlen. reflexivity.
  - cbn [Orm.sequence]. rewrite Hs, Hlen. reflexivity.
  - reflexivity.
Qed.

(** X14.  [QuestionQuestionSetRepository.sync_save_all] in a session with
    nothing pending, given objects that are different from each other and
    not yet saved, when the commit goes through: the keys returned line up
    with the objects given, they are the next keys of the table one after
    the other, and the table has gained the rows of these objects under
    these keys, in the order given. *)
Theorem question_question_set_sync_save_all_keys {A}
    (question_question_sets : list nat) (cols : list A)
    (s : Orm.session A) :
  Orm.pending s = [] ->
  NoDup question_question_sets ->
  Forall2 (fun r c => Orm.objects s !! r = Some (Orm.mkObject None c))
    question_question_sets cols ->
  exists s' : Orm.session A,
    QuestionQuestionSetRepository.sync_save_all true question_question_sets s
    = (s', Return (map Some
                     (Orm.keys_from (Orm.sequence s)
                        (length question_question_sets))))
    /\ Orm.table s'
       = Orm.table s
         ++ zip (Orm.keys_from (Orm.sequence s)
                   (length question_question_sets)) cols
    /\ Orm.pending s' = [].
Proof.
  intros Hclean Hnd Hall.
  unfold QuestionQuestionSetRepository.sync_save_all.
  rewrite (fold_add_transient question_question_sets cols s Hnd);
    [| rewrite Hclean; intros r _; apply not_elem_of_nil | exact Hall].
  unfold Orm.commit, Orm.flush.
  cbn [Orm.objects Orm.pending Orm.table Orm.sequence].
  rewrite Hclean. cbn [app].
  set (s2 := Orm.mkSession (Orm.objects s) question_question_sets
               (Orm.table s) (Orm.sequence s)).
  destruct (fold_insert_transient question_question_sets cols s2 Hnd Hall)
    as (Ht & Hs & Hk).
  eexists. split; [|split].
  - f_equal. f_equal.
    change (Orm.sequence s) with (Orm.sequence s2).
    rewrite <- Hk. apply map_ext. intros r. reflexivity.
  - cbn [Orm.table]. rewrite Ht. reflexivity.
  - reflexivity.
Qed.

(** X15.  [QuestionSetRepository.sync_save] of an object not yet saved, in a
    session with nothing pending: it returns the next key of the table and
    the table gains the one row of the object under that key.  Saving the
    same object again writes nothing: the session is left as it was and the
    same key is returned. *)
Theorem question_set_sync_save_once {A} (question_set : nat) (c : A)
    (s : Orm.session A) :
  Orm.pending s = [] ->
  Orm.objects s !! question_set = Some (Orm.mkObject None c) ->
  exists s' : Orm.session A,
    QuestionSetRepository.sync_save true question_set s
    = (s', Return (Some (Orm.sequence s)))
    /\ Orm.table s' = Orm.table s ++ [(Orm.sequence s, c)]
    /\ QuestionSetRepository.sync_save true question_set s'
       = (s', Return (Some (Orm.sequence s))).
Proof.
  intros Hclean Hr.
  assert (Hlt : (question_set < length (Orm.objects s))%nat)
    by (apply lookup_lt_Some in Hr; exact Hr).
  unfold QuestionSetRepository.sync_save at 1.
  unfold Orm.add, Orm.commit, Orm.flush. rewrite Hr. cbn [Orm.key].
  rewrite Hclean.
  rewrite bool_decide_eq_false_2 by apply not_elem_of_nil.
  cbn [app Orm.pending Orm.objects fold_left].
  rewrite (insert_transient _ question_set c) by exact Hr.
  cbn [Orm.objects Orm.pending Orm.table Orm.sequence].
  assert (Hkey :
    <[question_set := Orm.mkObject (Some (Orm.sequence s)) c]> (Orm.objects s)
    !! question_set = Some (Orm.mkObject (Some (Orm.sequence s)) c))
    by (apply list_lookup_insert_eq; exact Hlt).
  exists (Orm.mkSession
            (<[question_set := Orm.mkObject (Some (Orm.sequence s)) c]>
               (Orm.objects s))
            [] (Orm.table s ++ [(Orm.sequence s, c)]) (Orm.sequence s + 1)).
  split.
  { f_equal. f_equal. unfold Orm.key_of. cbn [Orm.objects].
    rewrite Hkey. reflexivity. }
  split; [reflexivity|].
  unfold QuestionSetRepository.sync_save, Orm.add, Orm.commit, Orm.flush.
  cbn [Orm.objects Orm.pending Orm.table Orm.sequence].
  rewrite Hkey.
  cbn [Orm.key fold_left Orm.objects Orm.pending Orm.table Orm.sequence].
  unfold Orm.key_of.
  cbn [Orm.key fold_left Orm.objects Orm.pending Orm.table Orm.sequence].
  rewrite Hkey. reflexivity.
Qed.

(** *** The same object given twice *)

Lemma add_cases {A} (r : nat) (s : Orm.session A) :
  Orm.add r s = s
  \/ ((r ∉ Orm.pending s)
      /\ Orm.add r s
         = Orm.mkSession (Orm.objects s) (Orm.pending s ++ [r]) (Orm.table s)
             (Orm.sequence s)).
Proof.
  unfold Orm.add. destruct (Orm.objects s !! r) as [o|]; [|left; reflexivity].
  destruct (Orm.key o); [left; reflexivity|].
  destruct (bool_decide_reflect (r ∈ Orm.pending s)); [left; reflexivity|].
  right. split; [assumption|reflexivity].
Qed.

Lemma add_transient {A} (r : nat) (c : A) (s : Orm.session A) :
  Orm.objects s !! r = Some (Orm.mkObject None c) ->
  r ∈ Orm.pending (Orm.add r s).
Proof.
  intros Hr. unfold Orm.add. rewrite Hr. cbn [Orm.key].
  destruct (bool_decide_reflect (r ∈ Orm.pending s)); [assumption|].
  cbn [Orm.pending]. apply elem_of_app. right. apply list_elem_of_here.
Qed.

Lemma fold_add_pending {A} (rs : list nat) (s : Orm.session A) :
  NoDup (Orm.pending s) ->
  Forall (fun r => exists c, Orm.objects s !! r = Some (Orm.mkObject None c))
    rs ->
  exists p : list nat,
    fold_left (fun s' r => Orm.add r s') rs s
    = Orm.mkSession (Orm.objects s) p (Orm.table s) (Orm.sequence s)
    /\ NoDup p
    /\ forall r, r ∈ p <-> r ∈ Orm.pending s \/ r ∈ rs.
Proof.
  revert s. induction rs as [|r rs IH]; intros s Hnd Hall.
  - exists (Orm.pending s). destruct s. cbn.
    split; [reflexivity|]. split; [exact Hnd|].
    intros r. split; [auto|]. intros [H|H]; [exact H|].
    apply elem_of_nil in H. destruct H.
  - apply Forall_cons in Hall as [[c Hr] Hall]. cbn [fold_left].
    pose proof (add_transient r c s Hr) as Hin.
    destruct (add_cases r s) as [Hsame|[Hnotin Hadd]].
    + rewrite Hsame in *. destruct (IH s Hnd Hall) as (p & Hp & Hndp & Hmem).
      exists p. split; [exact Hp|]. split; [exact Hndp|].
      intros r'. rewrite Hmem. split.
      * intros [H|H]; [left; exact H|right; apply list_elem_of_further, H].
      * intros [H|H]; [left; exact H|].
        apply elem_of_cons in H as [->|H]; [left; exact Hin|right; exact H].
    + rewrite Hadd.
      destruct (IH (Orm.mkSession (Orm.objects s) (Orm.pending s ++ [r])
                      (Orm.table s) (Orm.sequence s)))
        as (p & Hp & Hndp & Hmem).
      * cbn [Orm.pending]. apply NoDup_app. split; [exact Hnd|].
        split; [|apply NoDup_singleton].
        intros x Hx Hx'. apply list_elem_of_singleton in Hx'. subst x.
        contradiction.
      * exact Hall.
      * exists p. split; [exact Hp|]. split; [exact Hndp|].
        intros r'. rewrite Hmem. cbn [Orm.pending].
        rewrite elem_of_app, list_elem_of_singleton, elem_of_cons. tauto.
Qed.

Lemma transient_columns {A} (rs : list nat) (s : Orm.session A) :
  Forall (fun r => exists c, Orm.objects s !! r = Some (Orm.mkObject None c))
    rs ->
  exists cols : list A,
    Forall2 (fun r c => Orm.objects s !! r = Some (Orm.mkObject None c))
      rs cols.
Proof.
  induction 1 as [|r rs [c Hr] _ [cols IH]].
  - exists []. constructor.
  - exists (c :: cols). constructor; assumption.
Qed.

Lemma keys_from_lookup (k : Z) (n i : nat) :
  (i < n)%nat -> Orm.keys_from k n !! i = Some (k + Z.of_nat i).
Proof.
  revert k i. induction n as [|n IH]; intros k i Hi; [lia|].
  destruct i as [|i]; cbn [Orm.keys_from].
  - cbn. f_equal. lia.
  - cbn [lookup list_lookup]. rewrite IH by lia. f_equal. lia.
Qed.

Lemma map_lookup_eq {A B} (f : A -> B) (l : list A) (k : list B) (i : nat)
    (x : A) :
  map f l = k -> l !! i = Some x -> k !! i = Some (f x).
Proof.
  intros <-. revert i. induction l as [|y l IH]; intros i Hi; [discriminate|].
  destruct i as [|i]; cbn in *; [congruence|apply IH, Hi].
Qed.

(** X16.  [QuestionQuestionSetRepository.sync_save_all] in a session with
    nothing pending, given objects not yet saved of which some may be given
    more than once, when the commit goes through: the list returned is as
    long as the list given and holds a key at every position; two positions
    hold the same key exactly when they were given the same object; and the
    table gains one row for each object, not one for each position. *)
Theorem question_question_set_sync_save_all_shared {A}
    (question_question_sets : list nat) (s : Orm.session A) :
  Orm.pending s = [] ->
  Forall (fun r => exists c, Orm.objects s !! r = Some (Orm.mkObject None c))
    question_question_sets ->
  exists (s' : Orm.session A) (ks : list (option Z)),
    QuestionQuestionSetRepository.sync_save_all true question_question_sets s
    = (s', Return ks)
    /\ length ks = length question_question_sets
    /\ Forall (fun k => exists z : Z, k = Some z) ks
    /\ (forall (i j r r' : nat),
          question_question_sets !! i = Some r ->
          question_question_sets !! j = Some r' ->
          ks !! i = ks !! j <-> r = r')
    /\ length (Orm.table s')
       = Nat.add (length (Orm.table s))
           (length (remove_dups question_question_sets)).
Proof.
  intros Hclean Hall.
  unfold QuestionQuestionSetRepository.sync_save_all.
  destruct (fold_add_pending question_question_sets s) as (p & Hp & Hnd & Hmem);
    [rewrite Hclean; constructor|exact Hall|].
  rewrite Hp. unfold Orm.commit, Orm.flush.
  cbn [Orm.objects Orm.pending Orm.table Orm.sequence].
  set (s1 := Orm.mkSession (Orm.objects s) p (Orm.table s) (Orm.sequence s)).
  assert (Hallp :
    Forall (fun r => exists c, Orm.objects s1 !! r = Some (Orm.mkObject None c))
      p).
  { apply Forall_forall. intros r Hr. apply Hmem in Hr as [Hr|Hr].
    - rewrite Hclean in Hr. apply elem_of_nil in Hr. destruct Hr.
    - exact (proj1 (Forall_forall _ _) Hall r Hr). }
  destruct (transient_columns p s1 Hallp) as [cols Hcols].
  destruct (fold_insert_transient p cols s1 Hnd Hcols) as (Ht & _ & Hk).
  set (s2 := fold_left Orm.insert p s1) in *.
  assert (Hkey : forall r a, p !! a = Some r ->
                   Orm.key_of s2 r = Some (Orm.sequence s1 + Z.of_nat a)).
  { intros r a Ha.
    pose proof (map_lookup_eq _ _ _ a r Hk Ha) as Hl.
    pose proof (lookup_lt_Some _ _ _ Ha) as Hlt.
    pose proof (map_lookup_eq Some _ _ a _ eq_refl
                  (keys_from_lookup (Orm.sequence s1) (length p) a Hlt)) as Hr.
    rewrite Hl in Hr. injection Hr as Hr. exact Hr. }
  assert (Hpos : forall i r, question_question_sets !! i = Some r ->
                   exists a, p !! a = Some r).
  { intros i r Hi. apply list_elem_of_lookup, Hmem. right.
    apply list_elem_of_lookup. exists i. exact Hi. }
  eexists _, _. split; [reflexivity|]. split; [apply length_map|].
  split; [|split].
  - apply Forall_forall. intros k Hk'.
    apply list_elem_of_In, List.in_map_iff in Hk' as (r & <- & Hr).
    apply list_elem_of_In, list_elem_of_lookup in Hr as [i Hi].
    destruct (Hpos i r Hi) as [a Ha].
    eexists. exact (Hkey r a Ha).
  - intros i j r r' Hi Hj.
    rewrite (map_lookup_eq _ _ _ i r eq_refl Hi).
    rewrite (map_lookup_eq _ _ _ j r' eq_refl Hj).
    destruct (Hpos i r Hi) as [a Ha]. destruct (Hpos j r' Hj) as [b Hb].
    change (Orm.key_of
              (Orm.mkSession (Orm.objects s2) [] (Orm.table s2)
                 (Orm.sequence s2)) r)
      with (Orm.key_of s2 r).
    change (Orm.key_of
              (Orm.mkSession (Orm.objects s2) [] (Orm.table s2)
                 (Orm.sequence s2)) r')
      with (Orm.key_of s2 r').
    rewrite (Hkey r a Ha), (Hkey r' b Hb). split.
    + intros Heq. injection Heq as Heq.
      assert (a = b) by lia. subst b. congruence.
    + intros <-. rewrite (NoDup_lookup p a b r Hnd Ha Hb). reflexivity.
  - cbn [Orm.table]. rewrite Ht, length_app. f_equal.
    rewrite length_zip_with, keys_from_length.
    rewrite (Forall2_length _ _ _ Hcols), Nat.min_id.
    rewrite <- (Forall2_length _ _ _ Hcols).
    apply Permutation_length, NoDup_Permutation;
      [exact Hnd|apply NoDup_remove_dups|].
    intros r. rewrite Hmem, elem_of_remove_dups, Hclean.
    split; [intros [H|H]; [apply elem_of_nil in H; destruct H|exact H]|auto].
Qed.

(** *** The question repositories, run *)

(** Two equal entities saved in a session whose table gives key 3 next: keys
    3 and 4, two rows. *)
Lemma question_sync_save_all_scenario :
  Orm.pending scenario_session = []
  /\ exists s' : Orm.session QuestionColumns.t,
       QuestionRepository.sync_save_all true scenario_equestions
         scenario_session = (s', Return [Some 3; Some 4])
       /\ Orm.table s'
          = [(1, QuestionColumns.mk "q1" "a1" 1);
             (2, QuestionColumns.mk "q2" "a2" 1);
             (3, QuestionColumns.mk "what" "this" 2);
             (4, QuestionColumns.mk "what" "this" 2)].
Proof.
  split; [reflexivity|].
  destruct (question_sync_save_all_keys scenario_equestions scenario_session
              eq_refl) as (s' & Hrun & Ht & _).
  exists s'. split; [exact Hrun|exact Ht].
Defined.

(** The two question sets of the scenario saved together: keys 1 and 2, in
    the order given. *)
Lemma question_question_set_scenario :
  Orm.pending scenario_set_session = []
  /\ NoDup [0%nat; 1%nat]
  /\ exists s' : Orm.session string,
       QuestionQuestionSetRepository.sync_save_all true [0%nat; 1%nat]
         scenario_set_session = (s', Return [Some 1; Some 2])
       /\ Orm.table s' = [(1, "monday"); (2, "tuesday")].
Proof.
  assert (Hnd : NoDup [0%nat; 1%nat]).
  { apply NoDup_cons. split; [|apply NoDup_singleton].
    intros H. apply list_elem_of_singleton in H. discriminate H. }
  split; [reflexivity|]. split; [exact Hnd|].
  destruct (question_question_set_sync_save_all_keys [0%nat; 1%nat]
              ["monday"; "tuesday"] scenario_set_session eq_refl Hnd)
    as (s' & Hrun & Ht & _).
  - repeat constructor.
  - exists s'. split; [exact Hrun|exact Ht].
Defined.

(** The first question set saved once, then again: key 1 both times, one
    row. *)
Lemma question_set_scenario :
  Orm.pending scenario_set_session = []
  /\ Orm.objects scenario_set_session !! 0%nat
     = Some (Orm.mkObject None "monday")
  /\ exists s' : Orm.session string,
       QuestionSetRepository.sync_save true 0%nat scenario_set_session
       = (s', Return (Some 1))
       /\ Orm.table s' = [(1, "monday")]
       /\ QuestionSetRepository.sync_save true 0%nat s'
          = (s', Return (Some 1)).
Proof.
  split; [reflexivity|]. split; [reflexivity|].
  exact (question_set_sync_save_once 0%nat "monday" scenario_set_session
           eq_refl eq_refl).
Defined.

(** The first question set given twice with the second in between: the keys
    at the first and third position are the same, and two rows are
    written. *)
Lemma question_question_set_shared_scenario :
  Orm.pending scenario_set_session = []
  /\ exists (s' : Orm.session string) (ks : list (option Z)),
       QuestionQuestionSetRepository.sync_save_all true
         [0%nat; 1%nat; 0%nat] scenario_set_session = (s', Return ks)
       /\ length ks = 3%nat
       /\ ks !! 0%nat = ks !! 2%nat
       /\ length (Orm.table s') = 2%nat.
Proof.
  split; [reflexivity|].
  destruct (question_question_set_sync_save_all_shared [0%nat; 1%nat; 0%nat]
              scenario_set_session eq_refl)
    as (s' & ks & Hrun & Hlen & _ & Hsame & Ht).
  - repeat constructor; eexists; reflexivity.
  - exists s', ks. split; [exact Hrun|]. split; [exact Hlen|].
    split; [|exact Ht].
    apply (Hsame 0%nat 2%nat 0%nat 0%nat); reflexivity.
Defined.
